(** * evm-agent-kit: the Multicall2 batching service and the provider manager

    A shallow embedding of [src/utils/MulticallService.ts], of
    [providers/ProviderManager] and of [utils/validation], with the
    properties of the batched balance reader proved over it.

    The ethers library, the JSON-RPC node and the on-chain Multicall2
    contract are not part of the repository: they are the fields of the
    class [Ethers], and every general theorem holds for all of them. *)

From Stdlib Require Import ZArith Ascii String.
From stdpp Require Import base option list strings pretty gmap.

Local Open Scope Z_scope.

(** ** JavaScript values that can be thrown, and outcomes of a call *)

(** [catch (error)] in the sources distinguishes [error instanceof Error],
    whose [message] is read, from any other thrown value. *)
Inductive thrown : Type :=
  | JsError (message : string)
  | NonError.

Inductive outcome (A : Type) : Type :=
  | Returned (value : A)
  | Threw (error : thrown).
Arguments Returned {A} value.
Arguments Threw {A} error.

#[global] Instance outcome_ret : MRet outcome := λ A a, Returned a.
#[global] Instance outcome_bind : MBind outcome := λ A B f m,
  match m with
  | Returned a => f a
  | Threw e => Threw e
  end.

(** ** Data of the sources *)

(** [{ target: string; callData: string }] *)
Record call : Type := Call { target : string; callData : string }.

(** [{ success: boolean; returnData: string }] *)
Record CallResult : Type := mkCallResult { success : bool; returnData : string }.

(** [Erc20BatchBalanceParams] of [interfaces/erc20]. *)
Record Erc20BatchBalanceParams : Type :=
  { ownerAddress : string; tokenAddresses : list string }.

(** [new ethers.JsonRpcProvider(rpcUrl)] and [new ethers.Wallet(key, provider)]:
    the objects are identified by what they were built from. *)
Record JsonRpcProvider : Type := NewProvider { connectionUrl : string }.
Record Wallet : Type := NewWallet { walletKey : string; walletProvider : JsonRpcProvider }.

(** ** The library and the network *)

Class Ethers : Type := {
  (** [new URL(url)] does not throw. *)
  URL_parses : string → bool;
  (** [new ethers.Wallet(key)]: [None] when the wallet is built, else what
      the constructor throws. *)
  Wallet_rejects : string → option thrown;
  (** [erc20Interface.encodeFunctionData("balanceOf", [owner])]. *)
  encode_balanceOf : string → outcome string;
  (** [ethers.AbiCoder.defaultAbiCoder().decode(["uint256"], data)[0]]. *)
  decode_uint256 : string → outcome N;
  (** The message of the error raised when [returnData[i]] is read past
      the end of the decoded result. *)
  out_of_result_range : string;
  (** [await multicall.aggregate(calls)] on the contract at the given
      address, through the given provider. *)
  Multicall2_aggregate :
    string → JsonRpcProvider → list call → outcome (N * list string);
  (** [await multicall.tryAggregate(requireSuccess, calls)]. *)
  Multicall2_tryAggregate :
    string → JsonRpcProvider → bool → list call → outcome (list (bool * string));
}.

(** The round-trips an operation starts: each is one invocation of a method
    of the Multicall2 contract object with the batch it was given. *)
Inductive rpc : Type :=
  | Invoke_aggregate (address : string) (via : JsonRpcProvider) (calls : list call)
  | Invoke_tryAggregate (address : string) (via : JsonRpcProvider)
      (requireSuccess : bool) (calls : list call).

(** An asynchronous operation: the round-trips it started, in order, and
    how its promise settled. *)
Record run (A : Type) : Type := Run { rpcs : list rpc; settled : outcome A }.
Arguments Run {A} rpcs settled.
Arguments rpcs {A} r.
Arguments settled {A} r.

#[global] Instance run_ret : MRet run := λ A a, Run [] (Returned a).
#[global] Instance run_bind : MBind run := λ A B f m,
  match settled m with
  | Returned a => let r := f a in Run (rpcs m ++ rpcs r) (settled r)
  | Threw e => Run (rpcs m) (Threw e)
  end.

(** A synchronous step inside an operation. *)
Definition sync {A} (o : outcome A) : run A := Run [] o.

(** [try { body } catch (error) { handler }] *)
Definition try_catch {A} (body : run A) (handler : thrown → run A) : run A :=
  match settled body with
  | Returned a => body
  | Threw e => let r := handler e in Run (rpcs body ++ rpcs r) (settled r)
  end.

(** One invocation of a contract method: the round-trip is recorded with
    the batch handed over, and settles as the network answers. *)
Definition invoke_aggregate {E : Ethers} (address : string) (provider : JsonRpcProvider)
    (calls : list call) : run (N * list string) :=
  Run [Invoke_aggregate address provider calls]
      (Multicall2_aggregate address provider calls).

Definition invoke_tryAggregate {E : Ethers} (address : string) (provider : JsonRpcProvider)
    (requireSuccess : bool) (calls : list call) : run (list (bool * string)) :=
  Run [Invoke_tryAggregate address provider requireSuccess calls]
      (Multicall2_tryAggregate address provider requireSuccess calls).

(** ** JavaScript idioms *)

(** [a || b] on an optional number: [undefined] and [0] are falsy. *)
Definition number_or (a : option Z) (b : Z) : Z :=
  match a with
  | Some 0 | None => b
  | Some n => n
  end.

(** [s.startsWith(p)] *)
Definition startsWith (p s : string) : bool := String.prefix p s.

(** [s.includes(p)] *)
Fixpoint includes (p s : string) : bool :=
  String.prefix p s ||
  match s with
  | EmptyString => false
  | String _ s' => includes p s'
  end.

(** ** [MulticallService.ts]: the address table *)

(** [MULTICALL2_ADDRESSES] *)
Definition MULTICALL2_ADDRESSES : gmap Z string :=
  <[ 1 := "0x5BA1e12693Dc8F9c48aAD8770482f4739bEeD696" ]> (
  <[ 137 := "0x275617327c958bD06b5D6b871E7f491D76113dd8" ]> (
  <[ 56 := "0xa9193376D09C7f31283C54e56D013fCF370Cd9D9" ]> (
  <[ 8453 := "0xcA11bde05977b3631167028862bE2a173976CA11" ]> (
  <[ 10 := "0xcA11bde05977b3631167028862bE2a173976CA11" ]> (
  <[ 42161 := "0xcA11bde05977b3631167028862bE2a173976CA11" ]> ∅))))).

(** [getMulticallAddress]: [!address] holds for a missing entry and for
    the empty string. *)
Definition getMulticallAddress (chainId : Z) : outcome string :=
  match MULTICALL2_ADDRESSES !! chainId with
  | Some (String a s) => Returned (String a s)
  | _ => Threw (JsError ("Multicall2 address not found for chain ID " +:+ pretty chainId))
  end.

(** ** [utils/validation]: [ValidationUtils] *)

Definition isValidPrivateKey {E : Ethers} (privateKey : string) : bool :=
  let privateKey :=
    if negb (startsWith "0x" privateKey) then "0x" +:+ privateKey else privateKey in
  match Wallet_rejects privateKey with
  | None => true
  | Some _ => false
  end.

Definition isValidRpcUrl {E : Ethers} (url : string) : bool := URL_parses url.

(** ** [interfaces/config.ts] *)

Record NativeCurrency : Type :=
  { currencyName : string; symbol : string; decimals : Z }.

Record ChainInfo : Type := {
  id : Z;
  name : string;
  currencySymbol : string;
  explorerUrl : string;
  rpcUrls : list string;
  nativeCurrency : NativeCurrency;
}.

(** [Object.values(SUPPORTED_CHAINS)], in insertion order. *)
Definition SUPPORTED_CHAINS : list ChainInfo := [
  {| id := 1; name := "Ethereum Mainnet"; currencySymbol := "ETH";
     explorerUrl := "https://etherscan.io";
     rpcUrls := ["https://mainnet.infura.io/v3/YOUR_INFURA_PROJECT_ID";
                 "https://eth-mainnet.public.blastapi.io"];
     nativeCurrency := {| currencyName := "Ether"; symbol := "ETH"; decimals := 18 |} |};
  {| id := 137; name := "Polygon Mainnet"; currencySymbol := "MATIC";
     explorerUrl := "https://polygonscan.com";
     rpcUrls := ["https://polygon-rpc.com"];
     nativeCurrency := {| currencyName := "MATIC"; symbol := "MATIC"; decimals := 18 |} |};
  {| id := 56; name := "Binance Smart Chain"; currencySymbol := "BNB";
     explorerUrl := "https://bscscan.com";
     rpcUrls := ["https://bsc-dataseed.binance.org/"];
     nativeCurrency := {| currencyName := "BNB"; symbol := "BNB"; decimals := 18 |} |};
  {| id := 8453; name := "Base Mainnet"; currencySymbol := "ETH";
     explorerUrl := "https://basescan.org";
     rpcUrls := ["https://mainnet.base.org"];
     nativeCurrency := {| currencyName := "Ether"; symbol := "ETH"; decimals := 18 |} |}
].

(** ** [providers/ProviderManager] *)

Record ProviderManager : Type := {
  providers : gmap Z JsonRpcProvider;
  signers : gmap Z Wallet;
  defaultChainId : Z;
}.

(** [guessChainId]: the first supported chain one of whose URLs contains,
    or is contained in, the given URL; Ethereum Mainnet otherwise. *)
Definition guessChainId (rpcUrl : string) : Z :=
  match
    List.find (λ chain,
      existsb (λ url, includes url rpcUrl || includes rpcUrl url) (rpcUrls chain))
      SUPPORTED_CHAINS
  with
  | Some chain => id chain
  | None => 1
  end.

(** [new ProviderManager(defaultRpcUrl, privateKey?, defaultChainId?)] *)
Definition newProviderManager {E : Ethers} (defaultRpcUrl : string)
    (privateKey : option string) (defaultChainId : option Z) : outcome ProviderManager :=
  if negb (isValidRpcUrl defaultRpcUrl) then Threw (JsError "Invalid RPC URL") else
  let defaultChainId := number_or defaultChainId (guessChainId defaultRpcUrl) in
  let provider := NewProvider defaultRpcUrl in
  let providers := <[defaultChainId := provider]> ∅ in
  match privateKey with
  | Some (String _ _ as privateKey) => (* [if (privateKey)]: given and not empty *)
      if negb (isValidPrivateKey privateKey) then Threw (JsError "Invalid private key") else
      match Wallet_rejects privateKey with
      | Some e => Threw e
      | None =>
          Returned {| providers := providers;
                      signers := <[defaultChainId := NewWallet privateKey provider]> ∅;
                      defaultChainId := defaultChainId |}
      end
  | _ => Returned {| providers := providers; signers := ∅;
                     defaultChainId := defaultChainId |}
  end.

(** [getProvider(chainId?)] *)
Definition getProvider (this : ProviderManager) (chainId : option Z) : outcome JsonRpcProvider :=
  let id := number_or chainId (defaultChainId this) in
  match providers this !! id with
  | Some provider => Returned provider
  | None => Threw (JsError ("Provider not found for chain ID " +:+ pretty id))
  end.

(** [getSigner(chainId?)] *)
Definition getSigner (this : ProviderManager) (chainId : option Z) : outcome Wallet :=
  let id := number_or chainId (defaultChainId this) in
  match signers this !! id with
  | Some signer => Returned signer
  | None =>
      Threw (JsError ("Signer not found for chain ID " +:+ pretty id
                      +:+ ". Did you provide a private key?"))
  end.

(** [addProvider(rpcUrl, chainId, privateKey?)]: the manager is mutated in
    place, so the call yields the manager as it is left together with how
    the call ended. *)
Definition addProvider {E : Ethers} (this : ProviderManager) (rpcUrl : string) (chainId : Z)
    (privateKey : option string) : ProviderManager * outcome () :=
  if negb (isValidRpcUrl rpcUrl) then (this, Threw (JsError "Invalid RPC URL")) else
  let provider := NewProvider rpcUrl in
  let this :=
    {| providers := <[chainId := provider]> (providers this);
       signers := signers this;
       defaultChainId := defaultChainId this |} in
  match privateKey with
  | Some (String _ _ as privateKey) => (* [if (privateKey)]: given and not empty *)
      if negb (isValidPrivateKey privateKey)
      then (this, Threw (JsError "Invalid private key")) else
      match Wallet_rejects privateKey with
      | Some e => (this, Threw e)
      | None =>
          ({| providers := providers this;
              signers := <[chainId := NewWallet privateKey provider]> (signers this);
              defaultChainId := defaultChainId this |}, Returned ())
      end
  | _ => (this, Returned ())
  end.

(** [getChainInfo(chainId)] *)
Definition getChainInfo (chainId : Z) : option ChainInfo :=
  List.find (λ chain, bool_decide (id chain = chainId)) SUPPORTED_CHAINS.

(** ** [MulticallService.ts]: the two batching operations *)

(** [returnData[i]] on the decoded result. *)
Definition Result_at {E : Ethers} (returnData : list string) (i : nat) : outcome string :=
  match returnData !! i with
  | Some data => Returned data
  | None => Threw (JsError out_of_result_range)
  end.

(** The loop [for (let i = 0; i < tokenAddresses.length; i++)] of
    [getErc20BatchBalances], entered at index [i] with [rest] the token
    addresses from [i] on. *)
Fixpoint process_results {E : Ethers} (i : nat) (rest : list string)
    (returnData : list string) (balances : gmap string string)
    : outcome (gmap string string) :=
  match rest with
  | [] => Returned balances
  | tokenAddress :: rest =>
      data ← Result_at returnData i;
      balance ← decode_uint256 data;
      process_results (S i) rest returnData (<[tokenAddress := pretty balance]> balances)
  end.

(** The [catch] blocks. *)
Definition batch_balances_failed (error : thrown) : thrown :=
  match error with
  | JsError message => JsError ("Failed to get batch balances: " +:+ message)
  | NonError => JsError "Failed to get batch balances: Unknown error occurred"
  end.

Definition batch_calls_failed (error : thrown) : thrown :=
  match error with
  | JsError message => JsError ("Failed to batch calls: " +:+ message)
  | NonError => JsError "Failed to batch calls: Unknown error occurred"
  end.

(** [tokenAddresses.map((tokenAddress) => ({ target, callData }))] *)
Definition balanceOf_calls {E : Ethers} (ownerAddress : string) (tokenAddresses : list string)
    : outcome (list call) :=
  mapM (λ tokenAddress,
          callData ← encode_balanceOf ownerAddress;
          mret {| target := tokenAddress; callData := callData |})
       tokenAddresses.

(** [getErc20BatchBalances(params, chainId = 1)] *)
Definition getErc20BatchBalances {E : Ethers} (providerManager : ProviderManager)
    (params : Erc20BatchBalanceParams) (chainId : option Z) : run (gmap string string) :=
  let chainId := default 1 chainId in
  provider ← sync (getProvider providerManager (Some chainId));
  address ← sync (getMulticallAddress chainId);
  calls ← sync (balanceOf_calls (ownerAddress params) (tokenAddresses params));
  try_catch
    ('(blockNumber, returnData) ← invoke_aggregate address provider calls;
     sync (process_results 0 (tokenAddresses params) returnData ∅))
    (λ error, sync (Threw (batch_balances_failed error))).

(** [{ success: result[0], returnData: result[1] }] *)
Definition to_CallResult (result : bool * string) : CallResult :=
  {| success := result.1; returnData := result.2 |}.

(** [batchCalls(calls, chainId = 1, requireSuccess = false)] *)
Definition batchCalls {E : Ethers} (providerManager : ProviderManager) (calls : list call)
    (chainId : option Z) (requireSuccess : option bool) : run (list CallResult) :=
  let chainId := default 1 chainId in
  let requireSuccess := default false requireSuccess in
  provider ← sync (getProvider providerManager (Some chainId));
  address ← sync (getMulticallAddress chainId);
  try_catch
    (results ← invoke_tryAggregate address provider requireSuccess calls;
     mret (M := run) (map to_CallResult results))
    (λ error, sync (Threw (batch_calls_failed error))).

(** ** Address syntax *)

Definition hex_digit (c : ascii) : option N :=
  let n := N_of_ascii c in
  if (48 <=? n)%N && (n <=? 57)%N then Some (n - 48)%N
  else if (97 <=? n)%N && (n <=? 102)%N then Some (n - 87)%N
  else if (65 <=? n)%N && (n <=? 70)%N then Some (n - 55)%N
  else None.

(** The value of a string of hexadecimal digits, most significant first. *)
Fixpoint hex_value (acc : N) (digits : string) : option N :=
  match digits with
  | EmptyString => Some acc
  | String c digits => d ← hex_digit c; hex_value (16 * acc + d)%N digits
  end.

(** The part of a string after its ["0x"] prefix. *)
Definition hex_body (s : string) : option string :=
  match s with
  | String "0"%char (String "x"%char body) => Some body
  | _ => None
  end.

(** A syntactically valid account identifier: ["0x"] and the 40
    hexadecimal digits of 20 bytes. *)
Definition is_hex_address (s : string) : bool :=
  match hex_body s with
  | Some body =>
      bool_decide (String.length body = 40%nat) && bool_decide (is_Some (hex_value 0 body))
  | None => false
  end.

Definition lowercase_char (c : ascii) : ascii :=
  let n := N_of_ascii c in
  if (65 <=? n)%N && (n <=? 90)%N then ascii_of_N (n + 32) else c.

(** [s.toLowerCase()] on ASCII text: two encodings of an address that
    differ in letter case only have the same image. *)
Fixpoint toLowerCase (s : string) : string :=
  match s with
  | EmptyString => EmptyString
  | String c s => String (lowercase_char c) (toLowerCase s)
  end.

(** ** A library and a node to run the service on

    [Sample.library] is an instance of [Ethers] for concrete runs: the ABI
    coder for [uint256] and [balanceOf(address)], a key and a URL check,
    and a Multicall2 contract object whose answers are given. *)
Module Sample.

Definition hex_char (d : N) : ascii :=
  ascii_of_N (if (d <? 10)%N then d + 48 else d + 87)%N.

Fixpoint hex_digits (width : nat) (n : N) (acc : string) : string :=
  match width with
  | O => acc
  | S width => hex_digits width (n / 16)%N (String (hex_char (n mod 16)%N) acc)
  end.

(** The 32-byte ABI word of an unsigned integer. *)
Definition abi_word (n : N) : string := "0x" +:+ hex_digits 64 n "".

(** Decoding [uint256] reads the first 32 bytes of the data as a
    big-endian integer and fails on data that is shorter or is not
    hexadecimal. *)
Definition decode (data : string) : outcome N :=
  match hex_body data with
  | Some body =>
      if bool_decide (64 ≤ String.length body)%nat
         && bool_decide (is_Some (hex_value 0 body)) then
        match hex_value 0 (String.substring 0 64 body) with
        | Some n => Returned n
        | None => Threw (JsError "data out-of-bounds")
        end
      else Threw (JsError "data out-of-bounds")
  | None => Threw (JsError "invalid BytesLike value")
  end.

(** The call data of [balanceOf(owner)]: the selector and the address
    padded to 32 bytes. *)
Definition encode (owner : string) : outcome string :=
  match hex_body owner with
  | Some body =>
      if is_hex_address owner
      then Returned ("0x70a08231000000000000000000000000" +:+ toLowerCase body)
      else Threw (JsError "invalid address")
  | None => Threw (JsError "invalid address")
  end.

(** A private key is ["0x"] and the 64 hexadecimal digits of 32 bytes. *)
Definition key_rejected (key : string) : option thrown :=
  match hex_body key with
  | Some body =>
      if bool_decide (String.length body = 64%nat)
         && bool_decide (is_Some (hex_value 0 body))
      then None else Some (JsError "invalid private key")
  | None => Some (JsError "invalid private key")
  end.

Definition library
    (aggregate : list call → outcome (N * list string))
    (tryAggregate : bool → list call → outcome (list (bool * string))) : Ethers :=
  {| URL_parses := includes "://";
     Wallet_rejects := key_rejected;
     encode_balanceOf := encode;
     decode_uint256 := decode;
     out_of_result_range := "out of result range";
     Multicall2_aggregate := λ _ _, aggregate;
     Multicall2_tryAggregate := λ _ _, tryAggregate |}.

(** The Multicall2 contract over a chain on which a call either returns
    data or reverts: [aggregate] requires every call to succeed,
    [tryAggregate] reports each call's success and reverts only when
    success is required. *)
Definition aggregate (eth_call : call → option string) (calls : list call)
    : outcome (N * list string) :=
  match mapM eth_call calls with
  | Some returnData => Returned (19000000%N, returnData)
  | None => Threw (JsError "execution reverted: Multicall aggregate: call failed")
  end.

Definition tryAggregate (eth_call : call → option string) (requireSuccess : bool)
    (calls : list call) : outcome (list (bool * string)) :=
  let results :=
    map (λ c, match eth_call c with
              | Some data => (true, data)
              | None => (false, "0x")
              end) calls in
  if requireSuccess && negb (forallb fst results)
  then Threw (JsError "execution reverted: Multicall2 aggregate: call failed")
  else Returned results.

Definition on_chain (eth_call : call → option string) : Ethers :=
  library (aggregate eth_call) (tryAggregate eth_call).

(** A contract object that answers every batch with the same data. *)
Definition scripted (returnData : list string) (results : list (bool * string)) : Ethers :=
  library (λ _, Returned (19000000%N, returnData)) (λ _ _, Returned results).

Definition DAI : string := "0x6B175474E89094C44Da98b954EedeAC495271d0F".
Definition USDC : string := "0xA0b86991c6218b36c1d19D4a2e9Eb0cE3606eB48".
Definition WETH : string := "0xC02aaA39b223FE8D0A0e5C4F27eAD9083C756Cc2".
Definition owner : string := "0x742d35Cc6634C0532925a3b844Bc454e4438f44e".

(** A chain with three tokens; a call to any other target reverts.
    Addresses are compared as 20-byte values, whatever their letter case. *)
Definition tokens (c : call) : option string :=
  if bool_decide (toLowerCase (target c) = toLowerCase DAI) then Some (abi_word 1000)
  else if bool_decide (toLowerCase (target c) = toLowerCase USDC) then Some (abi_word 100)
  else if bool_decide (toLowerCase (target c) = toLowerCase WETH) then Some (abi_word 0)
  else None.

(** A manager with one connection, to Ethereum Mainnet. *)
Definition mainnet : ProviderManager :=
  {| providers := {[ 1 := NewProvider "https://eth-mainnet.public.blastapi.io" ]};
     signers := ∅;
     defaultChainId := 1 |}.

(** A manager with one connection, to Polygon. *)
Definition polygon : ProviderManager :=
  {| providers := {[ 137 := NewProvider "https://polygon-rpc.com" ]};
     signers := ∅;
     defaultChainId := 137 |}.

End Sample.

(** ** Properties of a returned mapping *)

(** The mapping the loop of [getErc20BatchBalances] builds from the token
    addresses paired with their decoded balances: one [balances.set] per
    pair, in order. *)
Definition recorded (balances : gmap string string) (entries : list (string * N))
    : gmap string string :=
  foldl (λ balances entry, <[entry.1 := pretty entry.2]> balances) balances entries.

(** A mapping is positional for a request and a response when every token
    address is mapped to the decimal string of the entry at its own index. *)
Definition positional {E : Ethers} (tokenAddresses returnData : list string)
    (balances : gmap string string) : Prop :=
  ∀ i token data value,
    tokenAddresses !! i = Some token →
    returnData !! i = Some data →
    decode_uint256 data = Returned value →
    balances !! token = Some (pretty value).

(** The same, for the indices whose token address does not occur again
    later in the request. *)
Definition positional_at_last {E : Ethers} (tokenAddresses returnData : list string)
    (balances : gmap string string) : Prop :=
  ∀ i token data value,
    tokenAddresses !! i = Some token →
    (∀ j, (i < j)%nat → tokenAddresses !! j ≠ Some token) →
    returnData !! i = Some data →
    decode_uint256 data = Returned value →
    balances !! token = Some (pretty value).

(** Two strings that encode the same address with different letter case. *)
Definition case_variants (a b : string) : Prop :=
  a ≠ b ∧ toLowerCase a = toLowerCase b.

(** ** Inside a contract method: the [address] arguments

    [MULTICALL2_ABI] types [target] as [address]. Before a method of an
    ethers contract sends anything, every [address] argument is turned into
    an address: a string that matches [/^0x[0-9a-f]{40}$/i] goes through
    [ethers.getAddress], which checks it; any other string is taken for a
    name and looked up with the provider's [resolveName], and a name that
    resolves to nothing is an error. Only then is the call encoded and sent
    to the contract. *)

(** [/^0x[0-9a-f]{40}$/i] *)
Definition matches_address_pattern (s : string) : bool :=
  match s with
  | String "0"%char (String x body) =>
      (bool_decide (x = "x"%char) || bool_decide (x = "X"%char))
      && bool_decide (String.length body = 40%nat)
      && bool_decide (is_Some (hex_value 0 body))
  | _ => false
  end.

Class AddressResolution : Type := {
  (** [ethers.getAddress(target)] on a string that matches the pattern. *)
  getAddress : string → outcome string;
  (** [provider.resolveName(name)]: the address of a name, or [null]. *)
  resolveName : JsonRpcProvider → string → outcome (option string);
  (** What is thrown for a name that resolves to nothing. *)
  unconfigured_name : thrown;
  (** The [eth_call] of [aggregate] to the contract at the given address,
      with the targets already resolved, and its decoded answer. *)
  call_aggregate :
    string → JsonRpcProvider → list call → outcome (N * list string);
  (** The [eth_call] of [tryAggregate]. *)
  call_tryAggregate :
    string → JsonRpcProvider → bool → list call → outcome (list (bool * string));
}.

(** One [address] argument. *)
Definition resolveAddress {L : AddressResolution} (provider : JsonRpcProvider)
    (target : string) : outcome string :=
  if matches_address_pattern target then getAddress target
  else
    name ← resolveName provider target;
    match name with
    | Some address => Returned address
    | None => Threw unconfigured_name
    end.

(** The [calls] argument: every target is resolved, the call data is kept.
    When several targets fail, the error of the first of them is taken. *)
Definition resolve_targets {L : AddressResolution} (provider : JsonRpcProvider)
    (calls : list call) : outcome (list call) :=
  mapM (λ c, address ← resolveAddress provider (target c);
             mret {| target := address; callData := callData c |}) calls.

(** The library whose two contract methods resolve their targets and then
    send; everything else is taken from [base]. *)
Definition resolving (base : Ethers) (L : AddressResolution) : Ethers :=
  {| URL_parses := @URL_parses base;
     Wallet_rejects := @Wallet_rejects base;
     encode_balanceOf := @encode_balanceOf base;
     decode_uint256 := @decode_uint256 base;
     out_of_result_range := @out_of_result_range base;
     Multicall2_aggregate := λ address provider calls,
       resolved ← resolve_targets provider calls;
       call_aggregate address provider resolved;
     Multicall2_tryAggregate := λ address provider requireSuccess calls,
       resolved ← resolve_targets provider calls;
       call_tryAggregate address provider requireSuccess resolved |}.




(** A provider that knows one name, "token.eth", as the DAI contract, in
    front of the sample chain; an address that matches the pattern is
    accepted as it is when its prefix is "0x". *)
Module SampleNames.

Definition names (name : string) : option string :=
  if bool_decide (name = "token.eth") then Some Sample.DAI else None.

Definition layer : AddressResolution :=
  {| getAddress := λ target,
       if is_hex_address target then Returned target
       else Threw (JsError "invalid address");
     resolveName := λ _ name, Returned (names name);
     unconfigured_name := JsError "unconfigured name";
     call_aggregate := λ _ _, Sample.aggregate Sample.tokens;
     call_tryAggregate := λ _ _, Sample.tryAggregate Sample.tokens |}.

Definition library : Ethers := resolving (Sample.on_chain Sample.tokens) layer.

End SampleNames.

(** What a manager holds, told by what its objects were built from: for
    every chain id the URL of its provider, the key and the provider URL of
    its signer, and the default chain id. Two managers with the same
    holdings may hold distinct objects. *)
Definition holdings (this : ProviderManager)
    : gmap Z string * gmap Z (string * string) * Z :=
  (connectionUrl <$> providers this,
   (λ wallet, (walletKey wallet, connectionUrl (walletProvider wallet))) <$> signers this,
   defaultChainId this).

(** ** The states a provider manager goes through *)

(** A manager is built by the constructor and then changed by [addProvider]
    only, whether the call returns or throws. *)
Inductive reachable {E : Ethers} : ProviderManager → Prop :=
  | reachable_new url key chainId this :
      newProviderManager url key chainId = Returned this → reachable this
  | reachable_addProvider this url chainId key :
      reachable this → reachable (addProvider this url chainId key).1.

(** ** [utils/formatting] and the rest of [ValidationUtils] *)

(** A JavaScript number as [isNaN] and [< 0] see it: not a number, an
    infinity, or a double [mantissa * 2 ^ exponent] (negative zero has
    mantissa 0 and is not below zero). *)
Inductive number : Type :=
  | NaN
  | Infinity (negative : bool)
  | Finite (mantissa exponent : Z).

Definition isNaN (n : number) : bool :=
  match n with
  | NaN => true
  | _ => false
  end.

(** [n < 0] *)
Definition below_zero (n : number) : bool :=
  match n with
  | NaN => false
  | Infinity negative => negative
  | Finite mantissa _ => mantissa <? 0
  end.

(** What these two files take from the language and from ethers. *)
Class Runtime : Type := {
  (** [Number(s)] on a string. *)
  Number : string → number;
  (** [ethers.isAddress(address)]. *)
  ethers_isAddress : string → outcome bool;
}.

(** [isValidAddress] of [utils/formatting]: a throwing check counts as a
    failed one. *)
Definition isValidAddress {R : Runtime} (address : string) : bool :=
  match ethers_isAddress address with
  | Returned valid => valid
  | Threw _ => false
  end.

(** [ValidationUtils.isValidAmount] *)
Definition isValidAmount {R : Runtime} (amount : string) : bool :=
  if isNaN (Number amount) then false
  else if below_zero (Number amount) then false
  else true.

(** [{ valid: boolean; error?: string }] *)
Record Validation : Type := { valid : bool; error : option string }.

(** [ValidationUtils.validateTransferParams] *)
Definition validateTransferParams {R : Runtime}
    (tokenAddress recipientAddress amount : string) : Validation :=
  if negb (isValidAddress tokenAddress)
  then {| valid := false; error := Some "Invalid token address" |}
  else if negb (isValidAddress recipientAddress)
  then {| valid := false; error := Some "Invalid recipient address" |}
  else if negb (isValidAmount amount)
  then {| valid := false; error := Some "Invalid amount" |}
  else {| valid := true; error := None |}.

(** An index argument of [slice] on a string of length [len]: a negative
    index counts from the end, and both ends are clamped. *)
Definition slice_bound (len i : Z) : Z :=
  if i <? 0 then Z.max (len + i) 0 else Z.min i len.

(** [s.slice(start, finish)] with integer arguments; [finish] may be left
    out. Characters are the bytes of the string, which is what an address
    is made of. *)
Definition slice (s : string) (start : Z) (finish : option Z) : string :=
  let len := Z.of_nat (String.length s) in
  let from := slice_bound len start in
  let to := match finish with
            | Some finish => slice_bound len finish
            | None => len
            end in
  if from <? to then String.substring (Z.to_nat from) (Z.to_nat (to - from)) s
  else "".

(** [shortenAddress(address, startLength = 6, endLength = 4)] *)
Definition shortenAddress {R : Runtime} (address : string)
    (startLength endLength : option Z) : outcome string :=
  let startLength := default 6 startLength in
  let endLength := default 4 endLength in
  if negb (isValidAddress address) then Threw (JsError "Invalid Ethereum address") else
  Returned (slice address 0 (Some startLength) +:+ "..."
            +:+ slice address (- endLength) None).

(** A runtime for concrete runs: addresses are the 20-byte hexadecimal
    strings, and [Number] reads an optional minus sign and decimal digits
    (the empty string is zero). *)
Module SampleRuntime.

Fixpoint digits_value (acc : Z) (s : string) : option Z :=
  match s with
  | EmptyString => Some acc
  | String c s =>
      let n := Z.of_N (N_of_ascii c) in
      if (48 <=? n) && (n <=? 57) then digits_value (10 * acc + (n - 48)) s else None
  end.

Definition to_number (s : string) : number :=
  match s with
  | String "-"%char digits =>
      match digits, digits_value 0 digits with
      | String _ _, Some n => Finite (- n) 0
      | _, _ => NaN
      end
  | _ =>
      match digits_value 0 s with
      | Some n => Finite n 0
      | None => NaN
      end
  end.

Definition runtime : Runtime :=
  {| Number := to_number;
     ethers_isAddress := λ address, Returned (is_hex_address address) |}.

(** A valid private key. *)
Definition key : string :=
  "0x0123456789abcdef0123456789abcdef0123456789abcdef0123456789abcdef".

(** The manager built for Mainnet with that key. *)
Definition signing : ProviderManager :=
  let provider := NewProvider "https://eth-mainnet.public.blastapi.io" in
  {| providers := {[ 1 := provider ]};
     signers := {[ 1 := NewWallet key provider ]};
     defaultChainId := 1 |}.

End SampleRuntime.

(** ** Lemmas on the building blocks *)

Section building_blocks.
Context {E : Ethers}.

Lemma balanceOf_calls_encoded ownerAddress callData tokenAddresses :
  encode_balanceOf ownerAddress = Returned callData →
  balanceOf_calls ownerAddress tokenAddresses =
    Returned ((λ tokenAddress, Call tokenAddress callData) <$> tokenAddresses).
Proof.
  intros Henc. unfold balanceOf_calls.
  induction tokenAddresses as [|t ts IH]; [reflexivity|].
  cbn [mapM]. rewrite IH, Henc. reflexivity.
Qed.

Lemma decoded_values (returnData : list string) :
  Forall (λ data, ∃ value, decode_uint256 data = Returned value) returnData →
  ∃ values, Forall2 (λ data value, decode_uint256 data = Returned value) returnData values.
Proof.
  induction 1 as [|d ds [v Hv] _ [vs IH]].
  - exists []. constructor.
  - exists (v :: vs). by constructor.
Qed.

(** The loop succeeds when the entries it reads exist and decode; what
    lies after them in the response is never read. *)
Lemma process_results_decoded before datas after rest values balances :
  Forall2 (λ data value, decode_uint256 data = Returned value) datas values →
  length rest = length datas →
  process_results (length before) rest (before ++ datas ++ after) balances =
    Returned (recorded balances (zip rest values)).
Proof.
  intros Hdec. revert before rest balances.
  induction Hdec as [|d v ds vs Hd _ IH]; intros before rest balances Hlen.
  - destruct rest; [reflexivity | discriminate].
  - destruct rest as [|t rest]; [discriminate|].
    injection Hlen as Hlen. cbn [process_results].
    unfold Result_at.
    rewrite lookup_app_r by lia. rewrite Nat.sub_diag. cbn.
    rewrite Hd. cbn.
    specialize (IH (before ++ [d]) rest (<[t := pretty v]> balances) Hlen).
    rewrite length_app, Nat.add_1_r, <- app_assoc in IH. cbn in IH.
    exact IH.
Qed.

(** The loop throws when the response ends before the token addresses do. *)
Lemma process_results_short i rest returnData balances :
  (i ≤ length returnData < i + length rest)%nat →
  ∃ error, process_results i rest returnData balances = Threw error.
Proof.
  revert i balances.
  induction rest as [|t rest IH]; intros i balances Hlen; cbn in Hlen; [lia|].
  cbn [process_results]. unfold Result_at.
  destruct (returnData !! i) as [d|] eqn:Hd; cbn; [|eauto].
  destruct (decode_uint256 d) as [v|e]; cbn; [|eauto].
  apply IH. apply lookup_lt_Some in Hd. lia.
Qed.

Lemma recorded_lookup_other entries balances token :
  token ∉ entries.*1 →
  recorded balances entries !! token = balances !! token.
Proof.
  revert balances.
  induction entries as [|[t v] es IH]; intros balances Hnotin; [reflexivity|].
  cbn in *. apply not_elem_of_cons in Hnotin as [Hne Hnotin].
  unfold recorded in *. cbn. rewrite IH by done.
  by rewrite lookup_insert_ne.
Qed.

Lemma recorded_lookup_last entries balances i token value :
  entries !! i = Some (token, value) →
  (∀ j, (i < j)%nat → entries.*1 !! j ≠ Some token) →
  recorded balances entries !! token = Some (pretty value).
Proof.
  revert balances i.
  induction entries as [|[t v] es IH]; intros balances i Hi Hlast; [done|].
  destruct i as [|i]; cbn in Hi.
  - injection Hi as -> ->. unfold recorded. cbn.
    fold (recorded (<[token := pretty value]> balances) es).
    rewrite recorded_lookup_other; [by rewrite lookup_insert_eq|].
    intros [j Hj]%list_elem_of_lookup.
    by apply (Hlast (S j)); [lia|].
  - unfold recorded. cbn.
    apply (IH _ i); [done|].
    intros j Hj. apply (Hlast (S j)). lia.
Qed.

Lemma dom_recorded entries balances :
  dom (recorded balances entries) = dom balances ∪ list_to_set entries.*1.
Proof.
  revert balances.
  induction entries as [|[t v] es IH]; intros balances; cbn.
  - by rewrite (right_id_L ∅ (∪)).
  - unfold recorded in *. cbn. rewrite IH, dom_insert_L.
    by rewrite (comm_L (∪) {[t]}), (assoc_L (∪)).
Qed.

(** The two operations once the provider and the contract address are
    found: one invocation, and the [catch] block around it. *)
Lemma getErc20BatchBalances_resolved providerManager params chainId provider address calls :
  getProvider providerManager (Some (default 1 chainId)) = Returned provider →
  getMulticallAddress (default 1 chainId) = Returned address →
  balanceOf_calls (ownerAddress params) (tokenAddresses params) = Returned calls →
  getErc20BatchBalances providerManager params chainId =
    Run [Invoke_aggregate address provider calls]
      match Multicall2_aggregate address provider calls with
      | Returned (blockNumber, returnData) =>
          match process_results 0 (tokenAddresses params) returnData ∅ with
          | Returned balances => Returned balances
          | Threw error => Threw (batch_balances_failed error)
          end
      | Threw error => Threw (batch_balances_failed error)
      end.
Proof.
  intros Hp Ha Hc. unfold getErc20BatchBalances.
  rewrite Hp, Ha, Hc. cbn.
  unfold try_catch, invoke_aggregate. cbn.
  destruct (Multicall2_aggregate address provider calls) as [[bn rd]|e]; cbn; [|done].
  destruct (process_results 0 (tokenAddresses params) rd ∅); reflexivity.
Qed.

Lemma batchCalls_resolved providerManager calls chainId requireSuccess provider address :
  getProvider providerManager (Some (default 1 chainId)) = Returned provider →
  getMulticallAddress (default 1 chainId) = Returned address →
  batchCalls providerManager calls chainId requireSuccess =
    Run [Invoke_tryAggregate address provider (default false requireSuccess) calls]
      match Multicall2_tryAggregate address provider (default false requireSuccess) calls with
      | Returned results => Returned (to_CallResult <$> results)
      | Threw error => Threw (batch_calls_failed error)
      end.
Proof.
  intros Hp Ha. unfold batchCalls.
  rewrite Hp, Ha. cbn.
  unfold try_catch, invoke_tryAggregate. cbn.
  destruct (Multicall2_tryAggregate _ _ _ _); reflexivity.
Qed.

End building_blocks.

(** ** Properties *)

(** C8: the Multicall2 address lookup returns the fixed deployed address for
    exactly the chain ids 1, 137, 56, 8453, 10 and 42161 (the last three
    sharing one address) and throws for every other chain id. *)
Theorem getMulticallAddress_table (chainId : Z) :
  getMulticallAddress chainId =
    if decide (chainId = 1) then Returned "0x5BA1e12693Dc8F9c48aAD8770482f4739bEeD696"
    else if decide (chainId = 137) then Returned "0x275617327c958bD06b5D6b871E7f491D76113dd8"
    else if decide (chainId = 56) then Returned "0xa9193376D09C7f31283C54e56D013fCF370Cd9D9"
    else if decide (chainId ∈ [8453; 10; 42161])
      then Returned "0xcA11bde05977b3631167028862bE2a173976CA11"
    else Threw (JsError ("Multicall2 address not found for chain ID " +:+ pretty chainId)).
Proof.
  unfold getMulticallAddress, MULTICALL2_ADDRESSES.
  repeat case_decide; subst; try reflexivity.
  - set_unfold. destruct_or!; subst; reflexivity.
  - set_unfold.
    rewrite !lookup_insert_ne by naive_solver.
    rewrite lookup_empty. reflexivity.
Qed.


(** C1, for the last occurrence of each address: once the provider and the
    contract address are found and the response has as many entries as
    there are token addresses, all of which decode,
    [getErc20BatchBalances] returns a mapping that sends the i-th token
    address to the decimal string of the i-th entry, for every i whose
    address does not occur again later in the request (a repeated address
    keeps the entry of its last occurrence); and [batchCalls] returns one
    [CallResult] per tuple of the response, in the order of the response,
    made of that tuple's [success] and [returnData]. *)
Theorem batch_results_follow_positions {E : Ethers} providerManager owner tokens calls
    chainId requireSuccess provider address callData blockNumber returnData response :
  getProvider providerManager (Some (default 1 chainId)) = Returned provider →
  getMulticallAddress (default 1 chainId) = Returned address →
  encode_balanceOf owner = Returned callData →
  Multicall2_aggregate address provider ((λ token, Call token callData) <$> tokens)
    = Returned (blockNumber, returnData) →
  length returnData = length tokens →
  Forall (λ data, ∃ value, decode_uint256 data = Returned value) returnData →
  Multicall2_tryAggregate address provider (default false requireSuccess) calls
    = Returned response →
  (∃ balances,
     settled (getErc20BatchBalances providerManager
                {| ownerAddress := owner; tokenAddresses := tokens |} chainId)
       = Returned balances ∧
     dom balances = list_to_set tokens ∧
     positional_at_last tokens returnData balances) ∧
  (∃ results,
     settled (batchCalls providerManager calls chainId requireSuccess) = Returned results ∧
     length results = length response ∧
     ∀ i, results !! i = to_CallResult <$> response !! i).
Proof.
  intros Hp Ha Henc Hagg Hlen Hdec Htry. split.
  - rewrite (getErc20BatchBalances_resolved _ _ _ provider address
               ((λ token, Call token callData) <$> tokens)); cbn;
      [|done|done|by apply balanceOf_calls_encoded].
    rewrite Hagg.
    destruct (decoded_values _ Hdec) as [values Hvalues].
    pose proof (process_results_decoded [] returnData [] tokens values ∅ Hvalues) as Hloop.
    rewrite app_nil_r in Hloop. cbn in Hloop. rewrite Hloop by done.
    eexists. split; [reflexivity|]. split.
    + rewrite dom_recorded, dom_empty_L, (left_id_L ∅ (∪)), fst_zip; [done|].
      apply Forall2_length in Hvalues. lia.
    + intros i token data value Hi Hlast Hdata Hvalue.
      destruct (Forall2_lookup_l _ _ _ _ _ Hvalues Hdata) as (v & Hv & Hdv).
      assert (v = value) as -> by congruence.
      apply (recorded_lookup_last _ _ i).
      * by apply lookup_zip_with_Some; exists token, value.
      * rewrite fst_zip; [done|]. apply Forall2_length in Hvalues. lia.
  - rewrite (batchCalls_resolved _ _ _ _ provider address) by done. cbn.
    rewrite Htry. eexists. split; [reflexivity|]. split.
    + apply length_fmap.
    + intros i. apply list_lookup_fmap.
Qed.

(** Balances of DAI, USDC and WETH on the sample chain, and a best-effort
    batch of three calls. *)
Lemma batch_results_follow_positions_witness :
  let E := Sample.on_chain Sample.tokens in
  let tokens := [Sample.DAI; Sample.USDC; Sample.WETH] in
  let returnData := [Sample.abi_word 1000; Sample.abi_word 100; Sample.abi_word 0] in
  let calls := [Call Sample.USDC "0x18160ddd"; Call Sample.DAI "0x18160ddd"] in
  let response := [(true, Sample.abi_word 100); (true, Sample.abi_word 1000)] in
  (∃ balances,
     settled (getErc20BatchBalances (E := E) Sample.mainnet
                {| ownerAddress := Sample.owner; tokenAddresses := tokens |} None)
       = Returned balances ∧
     dom balances = list_to_set tokens ∧
     positional_at_last (E := E) tokens returnData balances) ∧
  (∃ results,
     settled (batchCalls (E := E) Sample.mainnet calls None None) = Returned results ∧
     length results = length response ∧
     ∀ i, results !! i = to_CallResult <$> response !! i).
Proof.
  intros E tokens returnData calls response.
  apply (batch_results_follow_positions (E := E) Sample.mainnet Sample.owner tokens calls
           None None (NewProvider "https://eth-mainnet.public.blastapi.io")
           "0x5BA1e12693Dc8F9c48aAD8770482f4739bEeD696"
           "0x70a08231000000000000000000000000742d35cc6634c0532925a3b844bc454e4438f44e"
           19000000%N returnData response).
  - vm_compute; reflexivity.
  - vm_compute; reflexivity.
  - vm_compute; reflexivity.
  - vm_compute; reflexivity.
  - reflexivity.
  - repeat constructor.
    + exists 1000%N. vm_compute; reflexivity.
    + exists 100%N. vm_compute; reflexivity.
    + exists 0%N. vm_compute; reflexivity.
  - vm_compute; reflexivity.
Defined.

(** C1, as stated, fails when a token address is repeated and the two
    entries differ: the address is mapped to the later entry, not to the
    entry at index 0. *)
Lemma repeated_token_is_not_positional :
  let E := Sample.scripted [Sample.abi_word 1; Sample.abi_word 2] [] in
  let tokens := [Sample.DAI; Sample.DAI] in
  let returnData := [Sample.abi_word 1; Sample.abi_word 2] in
  let callData :=
    "0x70a08231000000000000000000000000742d35cc6634c0532925a3b844bc454e4438f44e" in
  length returnData = length tokens ∧
  getErc20BatchBalances (E := E) Sample.mainnet
    {| ownerAddress := Sample.owner; tokenAddresses := tokens |} (Some 1)
  = Run [Invoke_aggregate "0x5BA1e12693Dc8F9c48aAD8770482f4739bEeD696"
           (NewProvider "https://eth-mainnet.public.blastapi.io")
           [Call Sample.DAI callData; Call Sample.DAI callData]]
        (Returned {[ Sample.DAI := "2" ]}) ∧
  ¬ positional (E := E) tokens returnData {[ Sample.DAI := "2" ]}.
Proof.
  intros E tokens returnData callData. split; [reflexivity|]. split.
  - vm_compute; reflexivity.
  - intros Hpos.
    specialize (Hpos 0%nat Sample.DAI (Sample.abi_word 1) 1%N eq_refl eq_refl).
    assert (decode_uint256 (Sample.abi_word 1) = Returned 1%N) as Hdec
      by (vm_compute; reflexivity).
    specialize (Hpos Hdec). vm_compute in Hpos. discriminate.
Qed.

(** C2, with keys compared as strings: the mapping is keyed by the address
    strings exactly as given. For two token addresses [a] and [b], the batch handed to the
    contract has two elements and the mapping is [{a: balance_a}] updated
    with [b: balance_b]: it has two entries when the strings differ, in
    particular when they are differently-cased encodings of one address,
    and a single entry, holding the later balance, only when the two
    strings are identical. *)
Theorem balances_keyed_by_exact_string {E : Ethers} providerManager owner a b chainId
    provider address callData blockNumber data_a data_b value_a value_b :
  getProvider providerManager (Some (default 1 chainId)) = Returned provider →
  getMulticallAddress (default 1 chainId) = Returned address →
  encode_balanceOf owner = Returned callData →
  Multicall2_aggregate address provider [Call a callData; Call b callData]
    = Returned (blockNumber, [data_a; data_b]) →
  decode_uint256 data_a = Returned value_a →
  decode_uint256 data_b = Returned value_b →
  let balances : gmap string string := <[b := pretty value_b]> {[a := pretty value_a]} in
  getErc20BatchBalances providerManager
    {| ownerAddress := owner; tokenAddresses := [a; b] |} chainId
  = Run [Invoke_aggregate address provider [Call a callData; Call b callData]]
        (Returned balances) ∧
  size balances = (if decide (a = b) then 1 else 2)%nat ∧
  (case_variants a b →
     size balances = 2%nat ∧
     balances !! a = Some (pretty value_a) ∧ balances !! b = Some (pretty value_b)) ∧
  (a = b → balances = {[a := pretty value_b]}).
Proof.
  intros Hp Ha Henc Hagg Hda Hdb balances.
  assert (size balances = (if decide (a = b) then 1 else 2)%nat) as Hsize.
  { subst balances. case_decide as Hab.
    - subst b. by rewrite insert_singleton_eq, map_size_singleton.
    - rewrite map_size_insert_None by (by rewrite lookup_singleton_ne).
      by rewrite map_size_singleton. }
  split; [|split; [done|split]].
  - rewrite (getErc20BatchBalances_resolved _ _ _ provider address
               [Call a callData; Call b callData]); cbn;
      [|done|done|by rewrite Henc].
    rewrite Hagg. unfold Result_at. cbn. rewrite Hda. cbn. rewrite Hdb. cbn.
    reflexivity.
  - intros [Hne _]. rewrite decide_False in Hsize by done.
    split; [done|]. subst balances. split.
    + by rewrite lookup_insert_ne, lookup_singleton_eq.
    + by rewrite lookup_insert_eq.
  - intros ->. subst balances. by rewrite insert_singleton_eq.
Qed.

(** DAI requested twice, once checksummed and once in lower case. *)
Lemma balances_keyed_by_exact_string_witness :
  let E := Sample.on_chain Sample.tokens in
  let a := Sample.DAI in
  let b := toLowerCase Sample.DAI in
  let callData :=
    "0x70a08231000000000000000000000000742d35cc6634c0532925a3b844bc454e4438f44e" in
  let balances : gmap string string := <[b := pretty 1000%N]> {[a := pretty 1000%N]} in
  getErc20BatchBalances (E := E) Sample.mainnet
    {| ownerAddress := Sample.owner; tokenAddresses := [a; b] |} None
  = Run [Invoke_aggregate "0x5BA1e12693Dc8F9c48aAD8770482f4739bEeD696"
           (NewProvider "https://eth-mainnet.public.blastapi.io")
           [Call a callData; Call b callData]]
        (Returned balances) ∧
  size balances = (if decide (a = b) then 1 else 2)%nat ∧
  (case_variants a b →
     size balances = 2%nat ∧
     balances !! a = Some (pretty 1000%N) ∧ balances !! b = Some (pretty 1000%N)) ∧
  (a = b → balances = {[a := pretty 1000%N]}).
Proof.
  intros E a b callData.
  apply (balances_keyed_by_exact_string (E := E) Sample.mainnet Sample.owner a b None
           (NewProvider "https://eth-mainnet.public.blastapi.io")
           "0x5BA1e12693Dc8F9c48aAD8770482f4739bEeD696" callData 19000000%N
           (Sample.abi_word 1000) (Sample.abi_word 1000) 1000%N 1000%N);
    vm_compute; reflexivity.
Defined.

(** C2, as stated, fails: two differently-cased encodings of the DAI address
    give a two-element batch and a mapping with two entries, not one. *)
Lemma case_variants_get_two_entries :
  let E := Sample.on_chain Sample.tokens in
  let a := Sample.DAI in
  let b := toLowerCase Sample.DAI in
  let callData :=
    "0x70a08231000000000000000000000000742d35cc6634c0532925a3b844bc454e4438f44e" in
  let balances : gmap string string := {[ a := "1000"; b := "1000" ]} in
  case_variants a b ∧
  getErc20BatchBalances (E := E) Sample.mainnet
    {| ownerAddress := Sample.owner; tokenAddresses := [a; b] |} None
  = Run [Invoke_aggregate "0x5BA1e12693Dc8F9c48aAD8770482f4739bEeD696"
           (NewProvider "https://eth-mainnet.public.blastapi.io")
           [Call a callData; Call b callData]]
        (Returned balances) ∧
  ¬ (size balances = 1%nat).
Proof.
  intros E a b callData balances. split; [split|split].
  - apply (bool_decide_unpack _). vm_compute. exact I.
  - vm_compute; reflexivity.
  - vm_compute; reflexivity.
  - vm_compute. discriminate.
Qed.

(** C3, without a length check: neither operation compares the length of
    the response with the length of the request. [getErc20BatchBalances] throws, with
    the wrapped message "Failed to get batch balances: <cause>", when the
    response has fewer entries than there are token addresses; when it has
    more, the surplus entries are never read and the mapping of the first N
    entries is returned. [batchCalls] returns exactly one [CallResult] per
    tuple of the response, however many calls were sent. *)
Theorem response_length_is_not_checked {E : Ethers} providerManager owner tokens calls
    chainId requireSuccess provider address callData blockNumber returnData response :
  getProvider providerManager (Some (default 1 chainId)) = Returned provider →
  getMulticallAddress (default 1 chainId) = Returned address →
  encode_balanceOf owner = Returned callData →
  Multicall2_aggregate address provider ((λ token, Call token callData) <$> tokens)
    = Returned (blockNumber, returnData) →
  Multicall2_tryAggregate address provider (default false requireSuccess) calls
    = Returned response →
  let balances_run :=
    getErc20BatchBalances providerManager
      {| ownerAddress := owner; tokenAddresses := tokens |} chainId in
  ((length returnData < length tokens)%nat →
     ∃ cause,
       settled balances_run = Threw (JsError ("Failed to get batch balances: " +:+ cause))) ∧
  ((length tokens ≤ length returnData)%nat →
     Forall (λ data, ∃ value, decode_uint256 data = Returned value)
       (take (length tokens) returnData) →
     ∃ balances,
       settled balances_run = Returned balances ∧
       dom balances = list_to_set tokens ∧
       positional_at_last tokens returnData balances) ∧
  (∃ results,
     settled (batchCalls providerManager calls chainId requireSuccess) = Returned results ∧
     length results = length response).
Proof.
  intros Hp Ha Henc Hagg Htry balances_run. subst balances_run.
  rewrite (getErc20BatchBalances_resolved _ _ _ provider address
             ((λ token, Call token callData) <$> tokens)); cbn;
    [|done|done|by apply balanceOf_calls_encoded].
  rewrite Hagg. split; [|split].
  - intros Hshort.
    destruct (process_results_short 0 tokens returnData ∅) as [error ->]; [lia|].
    destruct error as [message|]; cbn; eauto.
  - intros Hlong Hdec.
    destruct (decoded_values _ Hdec) as [values Hvalues].
    pose proof (process_results_decoded [] (take (length tokens) returnData)
                  (drop (length tokens) returnData) tokens values ∅ Hvalues) as Hloop.
    cbn in Hloop. rewrite take_drop in Hloop.
    rewrite Hloop by (rewrite length_take; lia).
    assert (length values = length tokens) as Hlen.
    { apply Forall2_length in Hvalues. rewrite length_take in Hvalues. lia. }
    eexists. split; [reflexivity|]. split.
    + rewrite dom_recorded, dom_empty_L, (left_id_L ∅ (∪)), fst_zip; [done|lia].
    + intros i token data value Hi Hlast Hdata Hvalue.
      assert (take (length tokens) returnData !! i = Some data) as Htake.
      { rewrite lookup_take_lt; [done|]. by apply lookup_lt_Some in Hi. }
      destruct (Forall2_lookup_l _ _ _ _ _ Hvalues Htake) as (v & Hv & Hdv).
      assert (v = value) as -> by congruence.
      apply (recorded_lookup_last _ _ i).
      * by apply lookup_zip_with_Some; exists token, value.
      * rewrite fst_zip; [done|lia].
  - rewrite (batchCalls_resolved _ _ _ _ provider address) by done. cbn.
    rewrite Htry. eexists. split; [reflexivity|]. apply length_fmap.
Qed.

(** One token address answered with two entries, and two calls answered
    with one tuple. *)
Lemma response_length_is_not_checked_witness :
  let E := Sample.scripted [Sample.abi_word 7; Sample.abi_word 8] [(true, "0x")] in
  let tokens := [Sample.DAI] in
  let returnData := [Sample.abi_word 7; Sample.abi_word 8] in
  let calls := [Call Sample.DAI "0x18160ddd"; Call Sample.USDC "0x18160ddd"] in
  let balances_run :=
    getErc20BatchBalances (E := E) Sample.mainnet
      {| ownerAddress := Sample.owner; tokenAddresses := tokens |} None in
  ((length returnData < length tokens)%nat →
     ∃ cause,
       settled balances_run = Threw (JsError ("Failed to get batch balances: " +:+ cause))) ∧
  ((length tokens ≤ length returnData)%nat →
     Forall (λ data, ∃ value, decode_uint256 (Ethers := E) data = Returned value)
       (take (length tokens) returnData) →
     ∃ balances,
       settled balances_run = Returned balances ∧
       dom balances = list_to_set tokens ∧
       positional_at_last (E := E) tokens returnData balances) ∧
  (∃ results,
     settled (batchCalls (E := E) Sample.mainnet calls None None) = Returned results ∧
     length results = length [(true, "0x")]).
Proof.
  intros E tokens returnData calls.
  apply (response_length_is_not_checked (E := E) Sample.mainnet Sample.owner tokens calls
           None None (NewProvider "https://eth-mainnet.public.blastapi.io")
           "0x5BA1e12693Dc8F9c48aAD8770482f4739bEeD696"
           "0x70a08231000000000000000000000000742d35cc6634c0532925a3b844bc454e4438f44e"
           19000000%N returnData [(true, "0x")]);
    vm_compute; reflexivity.
Defined.

(** C3, as stated, fails in both operations: [batchCalls] returns the single
    result it received for two calls, and [getErc20BatchBalances] returns a
    mapping although two entries came back for one token address. *)
Lemma mismatched_lengths_are_returned :
  let E := Sample.scripted [Sample.abi_word 7; Sample.abi_word 8] [(true, "0x")] in
  settled (batchCalls (E := E) Sample.mainnet
             [Call Sample.DAI "0x18160ddd"; Call Sample.USDC "0x18160ddd"] None None)
    = Returned [ {| success := true; returnData := "0x" |} ] ∧
  settled (getErc20BatchBalances (E := E) Sample.mainnet
             {| ownerAddress := Sample.owner; tokenAddresses := [Sample.DAI] |} None)
    = Returned {[ Sample.DAI := "7" ]}.
Proof. split; vm_compute; reflexivity. Qed.






(** C5, after the provider lookup: for a chain id absent from the
    Multicall2 address table, both operations throw before any round-trip is started, and the
    error is not wrapped by the [catch] block. The provider is looked up
    first: the error is the provider manager's "Provider not found for
    chain ID <id>" when no provider is found, and "Multicall2 address not
    found for chain ID <id>" only when a provider is found for that chain
    id. *)
Theorem unsupported_chain_after_provider_lookup {E : Ethers} providerManager params calls
    chainId requireSuccess :
  MULTICALL2_ADDRESSES !! chainId = None →
  let error :=
    match getProvider providerManager (Some chainId) with
    | Returned _ =>
        JsError ("Multicall2 address not found for chain ID " +:+ pretty chainId)
    | Threw error => error
    end in
  getErc20BatchBalances providerManager params (Some chainId) = Run [] (Threw error) ∧
  batchCalls providerManager calls (Some chainId) requireSuccess = Run [] (Threw error) ∧
  (chainId ≠ 0 →
     error =
       if decide (is_Some (providers providerManager !! chainId))
       then JsError ("Multicall2 address not found for chain ID " +:+ pretty chainId)
       else JsError ("Provider not found for chain ID " +:+ pretty chainId)).
Proof.
  intros Habsent error. subst error.
  assert (getMulticallAddress chainId =
            Threw (JsError ("Multicall2 address not found for chain ID " +:+ pretty chainId)))
    as Haddress by (unfold getMulticallAddress; by rewrite Habsent).
  split; [|split].
  - unfold getErc20BatchBalances. cbn.
    destruct (getProvider providerManager (Some chainId)); cbn; [|done].
    by rewrite Haddress.
  - unfold batchCalls. cbn.
    destruct (getProvider providerManager (Some chainId)); cbn; [|done].
    by rewrite Haddress.
  - intros Hnonzero. unfold getProvider.
    replace (number_or (Some chainId) (defaultChainId providerManager)) with chainId
      by (by destruct chainId).
    destruct (providers providerManager !! chainId) as [provider|].
    + by rewrite decide_True.
    + rewrite decide_False; [done|]. by intros [? ?].
Qed.

(** Chain 999 once a provider has been registered for it. *)
Lemma unsupported_chain_after_provider_lookup_witness :
  let E := Sample.on_chain Sample.tokens in
  let registered := (addProvider (E := E) Sample.mainnet "https://rpc.example.org" 999 None).1 in
  let params := {| ownerAddress := Sample.owner; tokenAddresses := [Sample.DAI] |} in
  let calls := [Call Sample.DAI "0x18160ddd"] in
  MULTICALL2_ADDRESSES !! 999 = None ∧
  let error :=
    match getProvider registered (Some 999) with
    | Returned _ => JsError ("Multicall2 address not found for chain ID " +:+ pretty 999)
    | Threw error => error
    end in
  getErc20BatchBalances (E := E) registered params (Some 999) = Run [] (Threw error) ∧
  batchCalls (E := E) registered calls (Some 999) None = Run [] (Threw error) ∧
  (999 ≠ 0 →
     error =
       if decide (is_Some (providers registered !! 999))
       then JsError ("Multicall2 address not found for chain ID " +:+ pretty 999)
       else JsError ("Provider not found for chain ID " +:+ pretty 999)).
Proof.
  intros E registered params calls.
  assert (MULTICALL2_ADDRESSES !! 999 = None) as Habsent by (vm_compute; reflexivity).
  split; [exact Habsent|].
  exact (unsupported_chain_after_provider_lookup (E := E) registered params calls
           999 None Habsent).
Defined.

(** C5, as stated, fails when no provider is registered for the chain id:
    the error raised is the provider manager's, not the "unsupported chain"
    one. *)
Lemma unsupported_chain_without_provider :
  let E := Sample.on_chain Sample.tokens in
  MULTICALL2_ADDRESSES !! 999 = None ∧
  getErc20BatchBalances (E := E) Sample.mainnet
    {| ownerAddress := Sample.owner; tokenAddresses := [Sample.DAI] |} (Some 999)
  = Run [] (Threw (JsError "Provider not found for chain ID 999")) ∧
  batchCalls (E := E) Sample.mainnet [Call Sample.DAI "0x18160ddd"] (Some 999) None
  = Run [] (Threw (JsError "Provider not found for chain ID 999")) ∧
  JsError "Provider not found for chain ID 999"
    ≠ JsError "Multicall2 address not found for chain ID 999".
Proof. repeat split; try (vm_compute; reflexivity). discriminate. Qed.

(** C6: when the strict aggregate round-trip fails, [getErc20BatchBalances]
    throws one error whose message is "Failed to get batch balances: "
    followed by the message of the cause (or by "Unknown error occurred"
    for a thrown value that is not an [Error]); no mapping is returned. *)
Theorem aggregate_failure_is_wrapped {E : Ethers} providerManager params chainId
    provider address calls cause :
  getProvider providerManager (Some (default 1 chainId)) = Returned provider →
  getMulticallAddress (default 1 chainId) = Returned address →
  balanceOf_calls (ownerAddress params) (tokenAddresses params) = Returned calls →
  Multicall2_aggregate address provider calls = Threw cause →
  getErc20BatchBalances providerManager params chainId
  = Run [Invoke_aggregate address provider calls]
        (Threw (JsError ("Failed to get batch balances: " +:+
                           match cause with
                           | JsError message => message
                           | NonError => "Unknown error occurred"
                           end))).
Proof.
  intros Hp Ha Hcalls Hfail.
  rewrite (getErc20BatchBalances_resolved _ _ _ provider address calls) by done.
  rewrite Hfail. by destruct cause.
Qed.

(** A batch of three balance reads whose second target reverts. *)
Lemma aggregate_failure_is_wrapped_witness :
  let E := Sample.on_chain Sample.tokens in
  let unknown := "0x000000000000000000000000000000000000dEaD" in
  let callData :=
    "0x70a08231000000000000000000000000742d35cc6634c0532925a3b844bc454e4438f44e" in
  let calls := [Call Sample.DAI callData; Call unknown callData; Call Sample.USDC callData] in
  getErc20BatchBalances (E := E) Sample.mainnet
    {| ownerAddress := Sample.owner;
       tokenAddresses := [Sample.DAI; unknown; Sample.USDC] |} None
  = Run [Invoke_aggregate "0x5BA1e12693Dc8F9c48aAD8770482f4739bEeD696"
           (NewProvider "https://eth-mainnet.public.blastapi.io") calls]
        (Threw (JsError ("Failed to get batch balances: " +:+
                           "execution reverted: Multicall aggregate: call failed"))).
Proof.
  intros E unknown callData calls.
  apply (aggregate_failure_is_wrapped (E := E) Sample.mainnet
           {| ownerAddress := Sample.owner;
              tokenAddresses := [Sample.DAI; unknown; Sample.USDC] |} None
           (NewProvider "https://eth-mainnet.public.blastapi.io")
           "0x5BA1e12693Dc8F9c48aAD8770482f4739bEeD696" calls
           (JsError "execution reverted: Multicall aggregate: call failed"));
    vm_compute; reflexivity.
Defined.

(** C7: with [requireSuccess] false (given or defaulted), whatever tuples the
    contract answers, [batchCalls] returns normally, and a tuple whose
    success flag is false is the [CallResult] with [success = false] at the
    same position, the tuples whose flag is true staying [success = true]. *)
Theorem per_call_failure_is_data {E : Ethers} providerManager calls chainId requireSuccess
    provider address response :
  getProvider providerManager (Some (default 1 chainId)) = Returned provider →
  getMulticallAddress (default 1 chainId) = Returned address →
  default false requireSuccess = false →
  Multicall2_tryAggregate address provider false calls = Returned response →
  ∃ results,
    batchCalls providerManager calls chainId requireSuccess
      = Run [Invoke_tryAggregate address provider false calls] (Returned results) ∧
    length results = length response ∧
    ∀ i flag data,
      response !! i = Some (flag, data) →
      results !! i = Some {| success := flag; returnData := data |}.
Proof.
  intros Hp Ha Hrs Htry.
  rewrite (batchCalls_resolved _ _ _ _ provider address) by done.
  rewrite Hrs, Htry. eexists. split; [reflexivity|]. split.
  - apply length_fmap.
  - intros i flag data Hi. by rewrite list_lookup_fmap, Hi.
Qed.

(** Three calls of which the second reverts. *)
Lemma per_call_failure_is_data_witness :
  let E := Sample.on_chain Sample.tokens in
  let unknown := "0x000000000000000000000000000000000000dEaD" in
  let calls :=
    [Call Sample.DAI "0x18160ddd"; Call unknown "0x18160ddd"; Call Sample.USDC "0x18160ddd"] in
  let response :=
    [(true, Sample.abi_word 1000); (false, "0x"); (true, Sample.abi_word 100)] in
  ∃ results,
    batchCalls (E := E) Sample.mainnet calls None None
      = Run [Invoke_tryAggregate "0x5BA1e12693Dc8F9c48aAD8770482f4739bEeD696"
               (NewProvider "https://eth-mainnet.public.blastapi.io") false calls]
            (Returned results) ∧
    length results = length response ∧
    ∀ i flag data,
      response !! i = Some (flag, data) →
      results !! i = Some {| success := flag; returnData := data |}.
Proof.
  intros E unknown calls response.
  apply (per_call_failure_is_data (E := E) Sample.mainnet calls None None
           (NewProvider "https://eth-mainnet.public.blastapi.io")
           "0x5BA1e12693Dc8F9c48aAD8770482f4739bEeD696" response);
    vm_compute; reflexivity.
Defined.

(** What [addProvider] does with a key that is given and is not valid: the
    provider is already stored when the key is checked. *)
Lemma addProvider_invalid_key {E : Ethers} this rpcUrl chainId privateKey :
  isValidRpcUrl rpcUrl = true →
  privateKey ≠ "" →
  isValidPrivateKey privateKey = false →
  addProvider this rpcUrl chainId (Some privateKey)
  = ({| providers := <[chainId := NewProvider rpcUrl]> (providers this);
        signers := signers this;
        defaultChainId := defaultChainId this |},
     Threw (JsError "Invalid private key")).
Proof.
  intros Hurl Hnonempty Hkey. unfold addProvider.
  rewrite Hurl. cbn. destruct privateKey; [done|]. by rewrite Hkey.
Qed.

(** C9: on the manager with a single Mainnet connection, registering Polygon
    with the malformed key "0x1234" throws "Invalid private key", yet the
    provider map has gained the entry for chain 137; only the signer map is
    unchanged. *)
Theorem addProvider_keeps_provider_of_rejected_key :
  let E := Sample.on_chain Sample.tokens in
  let left := addProvider (E := E) Sample.mainnet "https://polygon-rpc.com" 137 (Some "0x1234") in
  isValidRpcUrl (E := E) "https://polygon-rpc.com" = true ∧
  isValidPrivateKey (E := E) "0x1234" = false ∧
  left.2 = Threw (JsError "Invalid private key") ∧
  providers Sample.mainnet !! 137 = None ∧
  providers left.1 !! 137 = Some (NewProvider "https://polygon-rpc.com") ∧
  providers left.1 ≠ providers Sample.mainnet ∧
  signers left.1 = signers Sample.mainnet.
Proof.
  intros E left. subst left.
  rewrite addProvider_invalid_key by (done || vm_compute; reflexivity). cbn.
  repeat split; try (vm_compute; reflexivity).
  intros Heq. apply (f_equal (λ m, m !! 137)) in Heq. vm_compute in Heq. discriminate.
Qed.

(** The sample managers are the ones the constructor builds from a single
    URL, the default chain being guessed from it. *)
Lemma sample_managers_are_constructed :
  let E := Sample.on_chain Sample.tokens in
  newProviderManager (E := E) "https://eth-mainnet.public.blastapi.io" None None
    = Returned Sample.mainnet ∧
  newProviderManager (E := E) "https://polygon-rpc.com" None None
    = Returned Sample.polygon.
Proof. split; vm_compute; reflexivity. Qed.

(** C10: a call that omits the chain id is the call for chain id 1, whatever
    the default chain of the provider manager. When that default is not 1
    and no provider is registered for chain 1, both operations throw
    "Provider not found for chain ID 1" without starting a round-trip,
    although [getProvider] with no chain id returns the default provider. *)
Theorem omitted_chain_id_is_mainnet {E : Ethers} providerManager params calls
    requireSuccess default_provider :
  defaultChainId providerManager ≠ 1 →
  providers providerManager !! 1 = None →
  providers providerManager !! defaultChainId providerManager = Some default_provider →
  getErc20BatchBalances providerManager params None
    = getErc20BatchBalances providerManager params (Some 1) ∧
  batchCalls providerManager calls None requireSuccess
    = batchCalls providerManager calls (Some 1) requireSuccess ∧
  getErc20BatchBalances providerManager params None
    = Run [] (Threw (JsError "Provider not found for chain ID 1")) ∧
  batchCalls providerManager calls None requireSuccess
    = Run [] (Threw (JsError "Provider not found for chain ID 1")) ∧
  getProvider providerManager None = Returned default_provider.
Proof.
  intros Hdefault Hnone Hsome.
  assert (getProvider providerManager (Some 1)
            = Threw (JsError "Provider not found for chain ID 1")) as Hp
    by (unfold getProvider; cbn; by rewrite Hnone).
  repeat split.
  - unfold getErc20BatchBalances. cbn. by rewrite Hp.
  - unfold batchCalls. cbn. by rewrite Hp.
  - unfold getProvider. cbn. by rewrite Hsome.
Qed.

(** The manager whose only connection, and default, is Polygon. *)
Lemma omitted_chain_id_is_mainnet_witness :
  let E := Sample.on_chain Sample.tokens in
  let params := {| ownerAddress := Sample.owner; tokenAddresses := [Sample.DAI] |} in
  let calls := [Call Sample.DAI "0x18160ddd"] in
  getErc20BatchBalances (E := E) Sample.polygon params None
    = getErc20BatchBalances (E := E) Sample.polygon params (Some 1) ∧
  batchCalls (E := E) Sample.polygon calls None None
    = batchCalls (E := E) Sample.polygon calls (Some 1) None ∧
  getErc20BatchBalances (E := E) Sample.polygon params None
    = Run [] (Threw (JsError "Provider not found for chain ID 1")) ∧
  batchCalls (E := E) Sample.polygon calls None None
    = Run [] (Threw (JsError "Provider not found for chain ID 1")) ∧
  getProvider Sample.polygon None = Returned (NewProvider "https://polygon-rpc.com").
Proof.
  intros E params calls.
  apply (omitted_chain_id_is_mainnet (E := E) Sample.polygon params calls None
           (NewProvider "https://polygon-rpc.com")).
  - vm_compute. discriminate.
  - vm_compute; reflexivity.
  - vm_compute; reflexivity.
Defined.

(** ** The provider manager beyond the batching service *)

(** Case analysis along the branches of [addProvider]. *)
Ltac addProvider_cases url key :=
  unfold addProvider;
  destruct (isValidRpcUrl url) eqn:?; cbn [negb];
  [destruct key as [[|? ?]|]; cbn [negb];
   [ | match goal with
       | |- context [isValidPrivateKey ?k] =>
           destruct (isValidPrivateKey k) eqn:?; cbn [negb];
           [destruct (Wallet_rejects k) eqn:?|]
       end | ]
  |].

Lemma guessChainId_supported url : guessChainId url ∈ [1; 137; 56; 8453].
Proof.
  unfold guessChainId.
  destruct (find _ SUPPORTED_CHAINS) as [chain|] eqn:Hfind;
    [|apply list_elem_of_In; cbn; tauto].
  apply find_some in Hfind as [Hin _].
  unfold SUPPORTED_CHAINS in Hin. cbn in Hin.
  destruct Hin as [<-|[<-|[<-|[<-|[]]]]]; apply list_elem_of_In; cbn; tauto.
Qed.

Lemma number_or_nonzero chainId fallback :
  fallback ≠ 0 → number_or chainId fallback ≠ 0.
Proof. by destruct chainId as [[]|]. Qed.

Lemma addProvider_defaultChainId {E : Ethers} this url chainId key :
  defaultChainId (addProvider this url chainId key).1 = defaultChainId this.
Proof. addProvider_cases url key; reflexivity. Qed.

(** The provider map after [addProvider] is the old one, possibly with the
    entry of [chainId] replaced; the signer map likewise, and a signer is
    only stored together with a provider. *)
Lemma addProvider_maps {E : Ethers} this url chainId key :
  let left := (addProvider this url chainId key).1 in
  (providers left = providers this ∧ signers left = signers this) ∨
  (providers left = <[chainId := NewProvider url]> (providers this) ∧
   (signers left = signers this ∨
    ∃ wallet, signers left = <[chainId := wallet]> (signers this))).
Proof.
  addProvider_cases url key; cbn; eauto 6.
Qed.

(** What the constructor and [addProvider] keep true of a manager. *)
Lemma reachable_invariant {E : Ethers} this :
  reachable this →
  defaultChainId this ≠ 0 ∧
  is_Some (providers this !! defaultChainId this) ∧
  ∀ id, is_Some (signers this !! id) → is_Some (providers this !! id).
Proof.
  induction 1 as [url key chainId this Hnew|this url chainId key _ (IH0 & IH & IHs)].
  - unfold newProviderManager in Hnew.
    assert (number_or chainId (guessChainId url) ≠ 0) as Hid.
    { apply number_or_nonzero. intros Hzero.
      pose proof (guessChainId_supported url) as Hin. rewrite Hzero in Hin.
      apply list_elem_of_In in Hin. cbn in Hin. intuition discriminate. }
    destruct (isValidRpcUrl url); [|done]. cbn in Hnew.
    destruct key as [[|a k]|]; cbn in Hnew.
    + injection Hnew as <-. cbn. rewrite lookup_insert_eq.
      repeat split; [done|done|]. intros id. rewrite lookup_empty. by intros [? ?].
    + destruct (isValidPrivateKey (String a k)); [|done]. cbn in Hnew.
      destruct (Wallet_rejects (String a k)); [done|].
      injection Hnew as <-. cbn. rewrite lookup_insert_eq.
      repeat split; [done|done|]. intros id.
      rewrite !lookup_insert. case_decide; [done|].
      rewrite lookup_empty. by intros [? ?].
    + injection Hnew as <-. cbn. rewrite lookup_insert_eq.
      repeat split; [done|done|]. intros id. rewrite lookup_empty. by intros [? ?].
  - rewrite addProvider_defaultChainId. split; [done|].
    destruct (addProvider_maps this url chainId key) as [[-> ->]|[-> [->|[wallet ->]]]].
    + done.
    + split; [|intros id Hid]; rewrite lookup_insert; case_decide; eauto.
    + split; [|intros id]; rewrite !lookup_insert; case_decide; eauto.
Qed.

(** X1: on every manager the constructor and [addProvider] can produce, the
    default chain id is not 0 and has a provider: [getProvider()] and
    [getProvider(0)] return it and never throw. *)
Theorem default_provider_is_always_found {E : Ethers} this :
  reachable this →
  defaultChainId this ≠ 0 ∧
  ∃ provider,
    providers this !! defaultChainId this = Some provider ∧
    getProvider this None = Returned provider ∧
    getProvider this (Some 0) = Returned provider.
Proof.
  intros (Hnonzero & [provider Hprovider] & _)%reachable_invariant.
  split; [done|]. exists provider. split; [done|].
  unfold getProvider. cbn. by rewrite Hprovider.
Qed.

(** The manager built for Mainnet, after a failed and a successful
    registration. *)
Lemma default_provider_is_always_found_witness :
  let E := Sample.on_chain Sample.tokens in
  let this :=
    (addProvider (E := E)
       (addProvider (E := E) Sample.mainnet "not a url" 5 None).1
       "https://polygon-rpc.com" 137 (Some "0x1234")).1 in
  defaultChainId this ≠ 0 ∧
  ∃ provider,
    providers this !! defaultChainId this = Some provider ∧
    getProvider this None = Returned provider ∧
    getProvider this (Some 0) = Returned provider.
Proof.
  intros E this.
  apply (default_provider_is_always_found (E := E) this).
  do 2 apply reachable_addProvider.
  apply (reachable_new (E := E) "https://eth-mainnet.public.blastapi.io" None None).
  vm_compute; reflexivity.
Defined.

(** X2: on every such manager a chain that has a signer has a provider:
    whenever [getSigner] returns for a chain id, so does [getProvider]. *)
Theorem signer_implies_provider {E : Ethers} this chainId signer :
  reachable this →
  getSigner this chainId = Returned signer →
  ∃ provider, getProvider this chainId = Returned provider.
Proof.
  intros (_ & _ & Hinv)%reachable_invariant.
  unfold getSigner, getProvider.
  destruct (signers this !! _) as [w|] eqn:Hw; [|done]. intros _.
  destruct (Hinv _ (mk_is_Some _ _ Hw)) as [provider ->]. eauto.
Qed.

(** A manager built with a key, then given a Polygon connection. *)
Lemma signer_implies_provider_witness :
  let E := Sample.on_chain Sample.tokens in
  let this :=
    (addProvider (E := E) SampleRuntime.signing "https://polygon-rpc.com" 137 None).1 in
  ∃ provider, getProvider this (Some 1) = Returned provider.
Proof.
  intros E this.
  apply (signer_implies_provider (E := E) this (Some 1)
           (NewWallet SampleRuntime.key
              (NewProvider "https://eth-mainnet.public.blastapi.io"))).
  - apply reachable_addProvider.
    apply (reachable_new (E := E) "https://eth-mainnet.public.blastapi.io"
             (Some SampleRuntime.key) None).
    vm_compute; reflexivity.
  - vm_compute; reflexivity.
Defined.

(** X3: registering a chain (other than 0) with a valid URL and a key that
    is accepted returns, after which [getProvider] gives the new provider
    for that chain and [getSigner] a wallet for that key bound to the new
    provider. *)
Theorem addProvider_registers_provider_and_signer {E : Ethers} this url chainId key :
  isValidRpcUrl url = true →
  key ≠ "" →
  isValidPrivateKey key = true →
  Wallet_rejects key = None →
  chainId ≠ 0 →
  let left := (addProvider this url chainId (Some key)).1 in
  (addProvider this url chainId (Some key)).2 = Returned () ∧
  getProvider left (Some chainId) = Returned (NewProvider url) ∧
  getSigner left (Some chainId) = Returned (NewWallet key (NewProvider url)).
Proof.
  intros Hurl Hkey Hvalid Hwallet Hnonzero. unfold addProvider.
  rewrite Hurl. cbn. destruct key as [|a k]; [done|].
  rewrite Hvalid, Hwallet.
  assert (number_or (Some chainId) (defaultChainId this) = chainId) as Hid
    by (by destruct chainId).
  unfold getProvider, getSigner.
  cbn [negb fst snd providers signers defaultChainId].
  by rewrite Hid, !lookup_insert_eq.
Qed.

(** Polygon registered with a key on the Mainnet manager. *)
Lemma addProvider_registers_provider_and_signer_witness :
  let E := Sample.on_chain Sample.tokens in
  let url := "https://polygon-rpc.com" in
  let left := (addProvider (E := E) Sample.mainnet url 137 (Some SampleRuntime.key)).1 in
  (addProvider (E := E) Sample.mainnet url 137 (Some SampleRuntime.key)).2 = Returned () ∧
  getProvider left (Some 137) = Returned (NewProvider url) ∧
  getSigner left (Some 137) = Returned (NewWallet SampleRuntime.key (NewProvider url)).
Proof.
  intros E url.
  apply (addProvider_registers_provider_and_signer (E := E) Sample.mainnet url 137
           SampleRuntime.key); try (vm_compute; reflexivity); discriminate.
Defined.

(** X4: registering a chain without a key (none, or the empty string)
    replaces that chain's provider and leaves every signer as it was: a
    signer already stored for the chain stays bound to the provider it was
    created with. *)
Theorem addProvider_without_key_keeps_signers {E : Ethers} this url chainId key :
  isValidRpcUrl url = true →
  key = None ∨ key = Some "" →
  chainId ≠ 0 →
  let left := (addProvider this url chainId key).1 in
  (addProvider this url chainId key).2 = Returned () ∧
  getProvider left (Some chainId) = Returned (NewProvider url) ∧
  signers left = signers this ∧
  ∀ id, getSigner left id = getSigner this id.
Proof.
  intros Hurl Hkey Hnonzero. unfold addProvider. rewrite Hurl. cbn.
  assert (number_or (Some chainId) (defaultChainId this) = chainId) as Hid
    by (by destruct chainId).
  destruct Hkey as [-> | ->]; unfold getProvider;
    cbn [negb fst snd providers signers defaultChainId];
    rewrite Hid, lookup_insert_eq; done.
Qed.

(** The Mainnet connection of the manager that signs is replaced. *)
Lemma addProvider_without_key_keeps_signers_witness :
  let E := Sample.on_chain Sample.tokens in
  let url := "https://mainnet.infura.io/v3/YOUR_INFURA_PROJECT_ID" in
  let left := (addProvider (E := E) SampleRuntime.signing url 1 None).1 in
  (addProvider (E := E) SampleRuntime.signing url 1 None).2 = Returned () ∧
  getProvider left (Some 1) = Returned (NewProvider url) ∧
  signers left = signers SampleRuntime.signing ∧
  ∀ id, getSigner left id = getSigner SampleRuntime.signing id.
Proof.
  intros E url.
  apply (addProvider_without_key_keeps_signers (E := E) SampleRuntime.signing url 1 None).
  - vm_compute; reflexivity.
  - left; reflexivity.
  - discriminate.
Defined.

Lemma addProvider_frame {E : Ethers} this url chainId key other :
  number_or other (defaultChainId this) ≠ chainId →
  getProvider (addProvider this url chainId key).1 other = getProvider this other ∧
  getSigner (addProvider this url chainId key).1 other = getSigner this other.
Proof.
  intros Hother.
  unfold getProvider, getSigner. rewrite addProvider_defaultChainId.
  destruct (addProvider_maps this url chainId key) as [[-> ->]|[-> [->|[wallet ->]]]];
    rewrite ?lookup_insert_ne by done; done.
Qed.

(** X5: [addProvider] for one chain, however it ends, changes nothing for a
    chain id that resolves to another chain: [getProvider] and [getSigner]
    answer as before, and the default chain id is kept. *)
Theorem addProvider_leaves_other_chains {E : Ethers} this url chainId key other :
  number_or other (defaultChainId this) ≠ chainId →
  let left := (addProvider this url chainId key).1 in
  defaultChainId left = defaultChainId this ∧
  getProvider left other = getProvider this other ∧
  getSigner left other = getSigner this other.
Proof.
  intros Hother left. subst left.
  split; [apply addProvider_defaultChainId|]. by apply addProvider_frame.
Qed.

(** Polygon is registered; Mainnet and the default are untouched. *)
Lemma addProvider_leaves_other_chains_witness :
  let E := Sample.on_chain Sample.tokens in
  let left :=
    (addProvider (E := E) SampleRuntime.signing "https://polygon-rpc.com" 137
       (Some "0x1234")).1 in
  defaultChainId left = defaultChainId SampleRuntime.signing ∧
  getProvider left None = getProvider SampleRuntime.signing None ∧
  getSigner left None = getSigner SampleRuntime.signing None.
Proof.
  intros E.
  apply (addProvider_leaves_other_chains (E := E) SampleRuntime.signing
           "https://polygon-rpc.com" 137 (Some "0x1234") None).
  vm_compute. discriminate.
Defined.

(** X6: the URL is checked first, by the constructor and by [addProvider]:
    with a URL that does not parse, the constructor throws "Invalid RPC
    URL" whatever the key, and [addProvider] throws it leaving the manager
    exactly as it was. *)
Theorem invalid_url_is_rejected_first {E : Ethers} this url chainId defaultChain key :
  isValidRpcUrl url = false →
  newProviderManager url key defaultChain = Threw (JsError "Invalid RPC URL") ∧
  addProvider this url chainId key = (this, Threw (JsError "Invalid RPC URL")).
Proof.
  intros Hurl. unfold newProviderManager, addProvider. by rewrite Hurl.
Qed.

(** A text that is not a URL, together with a malformed key. *)
Lemma invalid_url_is_rejected_first_witness :
  let E := Sample.on_chain Sample.tokens in
  newProviderManager (E := E) "not a url" (Some "0x1234") None
    = Threw (JsError "Invalid RPC URL") ∧
  addProvider (E := E) Sample.mainnet "not a url" 137 (Some "0x1234")
    = (Sample.mainnet, Threw (JsError "Invalid RPC URL")).
Proof.
  intros E.
  apply (invalid_url_is_rejected_first (E := E) Sample.mainnet "not a url" 137 None
           (Some "0x1234")).
  vm_compute; reflexivity.
Defined.

(** In the model, where an object is what it was built from, a repeated
    call meets the maps it would write already written. *)
Lemma addProvider_twice {E : Ethers} this url chainId key :
  addProvider (addProvider this url chainId key).1 url chainId key
  = addProvider this url chainId key.
Proof.
  addProvider_cases url key; cbn;
    repeat match goal with
           | H : isValidRpcUrl _ = _ |- _ => rewrite H
           | H : isValidPrivateKey _ = _ |- _ => rewrite H
           | H : Wallet_rejects _ = _ |- _ => rewrite H
           end; cbn; rewrite ?insert_insert_eq; reflexivity.
Qed.

(** X7: repeating an [addProvider] call with the same arguments ends as the
    first call did, and the manager then holds what it held after the first
    call: for every chain id a provider built from the same URL and a
    signer built from the same key and provider URL, and the same default
    chain. (The provider and the wallet of the chain are created anew by
    each call; the statement is about what they are built from.) *)
Theorem addProvider_repeated_call {E : Ethers} this url chainId key :
  let once := addProvider this url chainId key in
  let twice := addProvider once.1 url chainId key in
  twice.2 = once.2 ∧ holdings twice.1 = holdings once.1.
Proof.
  cbn zeta. by rewrite addProvider_twice.
Qed.

(** X8: a provider registered under chain id 0 is never handed out: on a
    manager built by the constructor and [addProvider], registering chain 0
    changes the answer of [getProvider] for no chain id, 0 included. *)
Theorem chain_zero_is_never_looked_up {E : Ethers} this url key chainId :
  reachable this →
  getProvider (addProvider this url 0 key).1 chainId = getProvider this chainId.
Proof.
  intros (Hnonzero & _ & _)%reachable_invariant.
  apply addProvider_frame.
  destruct chainId as [[|id|id]|]; cbn; done.
Qed.

(** Chain 0 registered on the Mainnet manager, then asked for. *)
Lemma chain_zero_is_never_looked_up_witness :
  let E := Sample.on_chain Sample.tokens in
  getProvider (addProvider (E := E) Sample.mainnet "https://rpc.example.org" 0 None).1 (Some 0)
  = getProvider Sample.mainnet (Some 0).
Proof.
  intros E.
  apply (chain_zero_is_never_looked_up (E := E) Sample.mainnet "https://rpc.example.org"
           None (Some 0)).
  apply (reachable_new (E := E) "https://eth-mainnet.public.blastapi.io" None None).
  vm_compute; reflexivity.
Defined.

(** X9: a manager the constructor returns has the given chain id as its
    default, or the chain guessed from the URL when none (or 0) is given;
    it has a provider for that chain only, built from the URL, and a signer
    for that chain exactly when a non-empty key was given. [getProvider]
    and [getSigner] throw their "not found" errors for every other chain. *)
Theorem constructed_manager {E : Ethers} url key chainId this :
  newProviderManager url key chainId = Returned this →
  let id := number_or chainId (guessChainId url) in
  let provider := NewProvider url in
  defaultChainId this = id ∧
  (∀ c, getProvider this c =
          if decide (number_or c id = id) then Returned provider
          else Threw (JsError ("Provider not found for chain ID " +:+ pretty (number_or c id)))) ∧
  (∀ c, getSigner this c =
          match key with
          | Some (String _ _ as key) =>
              if decide (number_or c id = id) then Returned (NewWallet key provider)
              else Threw (JsError ("Signer not found for chain ID " +:+ pretty (number_or c id)
                                   +:+ ". Did you provide a private key?"))
          | _ =>
              Threw (JsError ("Signer not found for chain ID " +:+ pretty (number_or c id)
                              +:+ ". Did you provide a private key?"))
          end).
Proof.
  intros Hnew id provider. subst id provider. unfold newProviderManager in Hnew.
  destruct (isValidRpcUrl url); [|done]. cbn [negb] in Hnew.
  unfold getProvider, getSigner.
  destruct key as [[|a k]|].
  - injection Hnew as <-. cbn [providers signers defaultChainId].
    split; [done|]. split; intros c.
    + rewrite lookup_insert. by repeat case_decide.
    + by rewrite lookup_empty.
  - destruct (isValidPrivateKey (String a k)); [|done]. cbn [negb] in Hnew.
    destruct (Wallet_rejects (String a k)); [done|].
    injection Hnew as <-. cbn [providers signers defaultChainId].
    split; [done|].
    split; intros c; rewrite lookup_insert, ?lookup_empty; by repeat case_decide.
  - injection Hnew as <-. cbn [providers signers defaultChainId].
    split; [done|]. split; intros c.
    + rewrite lookup_insert. by repeat case_decide.
    + by rewrite lookup_empty.
Qed.

(** The manager built for the Polygon URL with a key and no chain id. *)
Lemma constructed_manager_witness :
  let E := Sample.on_chain Sample.tokens in
  let this :=
    {| providers := {[ 137 := NewProvider "https://polygon-rpc.com" ]};
       signers := {[ 137 := NewWallet SampleRuntime.key (NewProvider "https://polygon-rpc.com") ]};
       defaultChainId := 137 |} in
  defaultChainId this = 137 ∧
  getProvider this (Some 1) = Threw (JsError "Provider not found for chain ID 1") ∧
  getSigner this None
    = Returned (NewWallet SampleRuntime.key (NewProvider "https://polygon-rpc.com")).
Proof.
  intros E this.
  destruct (constructed_manager (E := E) "https://polygon-rpc.com"
              (Some SampleRuntime.key) None this) as (Hid & Hprovider & Hsigner).
  - vm_compute; reflexivity.
  - split; [exact Hid|]. split.
    + rewrite (Hprovider (Some 1)). vm_compute; reflexivity.
    + rewrite (Hsigner None). vm_compute; reflexivity.
Defined.

(** X10: whatever the URL, the guessed chain id is one of 1, 137, 56 and
    8453, a chain that has an entry in [SUPPORTED_CHAINS] and a Multicall2
    address. *)
Theorem guessed_chain_is_supported url :
  guessChainId url ∈ [1; 137; 56; 8453] ∧
  (∃ info, getChainInfo (guessChainId url) = Some info ∧ id info = guessChainId url) ∧
  ∃ address, getMulticallAddress (guessChainId url) = Returned address.
Proof.
  pose proof (guessChainId_supported url) as Hin. split; [done|].
  apply list_elem_of_In in Hin. cbn in Hin.
  destruct Hin as [<-|[<-|[<-|[<-|[]]]]]; (split; [eexists; split|eexists]); reflexivity.
Qed.

(** X11: [getChainInfo] returns the entry whose id is the one asked for, and
    finds an entry exactly for the chain ids 1, 137, 56 and 8453: the
    chains 10 and 42161 of the Multicall2 table have none. *)
Theorem getChainInfo_by_id chainId :
  match getChainInfo chainId with
  | Some info => id info = chainId ∧ info ∈ SUPPORTED_CHAINS ∧ chainId ∈ [1; 137; 56; 8453]
  | None => chainId ∉ [1; 137; 56; 8453]
  end.
Proof.
  unfold getChainInfo.
  destruct (decide (chainId ∈ [1; 137; 56; 8453])) as [Hin|Hnotin].
  - apply list_elem_of_In in Hin. cbn in Hin.
    destruct Hin as [<-|[<-|[<-|[<-|[]]]]]; cbn;
      (split; [reflexivity|split]); apply list_elem_of_In; cbn; tauto.
  - destruct (find _ SUPPORTED_CHAINS) as [info|] eqn:Hfind; [|done].
    apply find_some in Hfind as [Hinfo Hid]. apply bool_decide_eq_true in Hid.
    exfalso. apply Hnotin. subst chainId.
    unfold SUPPORTED_CHAINS in Hinfo. cbn in Hinfo.
    destruct Hinfo as [<-|[<-|[<-|[<-|[]]]]]; apply list_elem_of_In; cbn; tauto.
Qed.

(** X12: every URL listed in [SUPPORTED_CHAINS] is guessed as the chain that
    lists it (no earlier entry of the table claims it), so [getChainInfo]
    of the guess is that chain's entry. *)
Theorem listed_url_is_guessed_as_its_chain chain url :
  chain ∈ SUPPORTED_CHAINS →
  url ∈ rpcUrls chain →
  guessChainId url = id chain ∧ getChainInfo (guessChainId url) = Some chain.
Proof.
  intros Hchain%list_elem_of_In Hurl.
  unfold SUPPORTED_CHAINS in Hchain. cbn in Hchain.
  destruct Hchain as [<-|[<-|[<-|[<-|[]]]]];
    apply list_elem_of_In in Hurl; cbn in Hurl;
    repeat (destruct Hurl as [<-|Hurl]; [split; vm_compute; reflexivity|]);
    destruct Hurl.
Qed.

(** The Binance Smart Chain entry and its URL. *)
Lemma listed_url_is_guessed_as_its_chain_witness :
  ∃ chain,
    SUPPORTED_CHAINS !! 2%nat = Some chain ∧
    guessChainId "https://bsc-dataseed.binance.org/" = id chain ∧
    getChainInfo (guessChainId "https://bsc-dataseed.binance.org/") = Some chain.
Proof.
  eexists. split; [reflexivity|].
  apply listed_url_is_guessed_as_its_chain.
  - apply list_elem_of_In. cbn. tauto.
  - apply list_elem_of_In. cbn. tauto.
Defined.

(** X13: a key is judged the same with and without its "0x" prefix: for a
    key that does not start with "0x", [isValidPrivateKey] answers as it
    does for the prefixed key, namely whether [new ethers.Wallet] takes the
    prefixed key. *)
Theorem isValidPrivateKey_ignores_prefix {E : Ethers} key :
  startsWith "0x" key = false →
  isValidPrivateKey key = isValidPrivateKey ("0x" +:+ key) ∧
  (isValidPrivateKey key = true ↔ Wallet_rejects ("0x" +:+ key) = None).
Proof.
  intros Hprefix.
  assert (startsWith "0x" ("0x" +:+ key) = true) as Hprefixed by (by destruct key).
  unfold isValidPrivateKey. rewrite Hprefix, Hprefixed. cbn [negb].
  split; [reflexivity|]. destruct (Wallet_rejects _); split; done.
Qed.

(** The sample key without its prefix. *)
Lemma isValidPrivateKey_ignores_prefix_witness :
  let E := Sample.on_chain Sample.tokens in
  let key := "0123456789abcdef0123456789abcdef0123456789abcdef0123456789abcdef" in
  isValidPrivateKey (E := E) key = isValidPrivateKey (E := E) ("0x" +:+ key) ∧
  (isValidPrivateKey (E := E) key = true ↔ Wallet_rejects ("0x" +:+ key) = None).
Proof.
  intros E key.
  apply (isValidPrivateKey_ignores_prefix (E := E) key).
  vm_compute; reflexivity.
Defined.

(** ** The batching service beyond its claims *)

(** A valid URL is stored by [addProvider] whatever the key. *)
Lemma addProvider_stores_provider {E : Ethers} this url chainId key :
  isValidRpcUrl url = true →
  providers (addProvider this url chainId key).1 !! chainId = Some (NewProvider url).
Proof.
  intros Hurl. addProvider_cases url key; try done; cbn; by rewrite lookup_insert_eq.
Qed.

(** The loop stops at the first entry that does not decode. *)
Lemma process_results_undecodable {E : Ethers} before datas values data after rest
    balances cause :
  Forall2 (λ data value, decode_uint256 data = Returned value) datas values →
  decode_uint256 data = Threw cause →
  (length datas < length rest)%nat →
  process_results (length before) rest (before ++ datas ++ data :: after) balances
    = Threw cause.
Proof.
  intros Hdec Hdata. revert before rest balances.
  induction Hdec as [|d v ds vs Hd _ IH]; intros before rest balances Hlen.
  - destruct rest as [|t rest]; [cbn in Hlen; lia|].
    cbn [process_results]. unfold Result_at.
    rewrite lookup_app_r by lia. rewrite Nat.sub_diag. cbn. by rewrite Hdata.
  - destruct rest as [|t rest]; [cbn in Hlen; lia|].
    cbn [process_results]. unfold Result_at.
    rewrite lookup_app_r by lia. rewrite Nat.sub_diag. cbn. rewrite Hd. cbn.
    specialize (IH (before ++ [d]) rest (<[t := pretty v]> balances)).
    rewrite length_app, Nat.add_1_r, <- app_assoc in IH. cbn in IH.
    apply IH. cbn in Hlen. lia.
Qed.

(** X14: each operation starts at most one round-trip, whatever its input
    and whatever the network answers, and it never returns a result
    without having made exactly one, an empty batch included. *)
Theorem at_most_one_round_trip {E : Ethers} providerManager params calls chainId
    requireSuccess :
  let balances_run := getErc20BatchBalances providerManager params chainId in
  let calls_run := batchCalls providerManager calls chainId requireSuccess in
  (length (rpcs balances_run) ≤ 1)%nat ∧
  (length (rpcs calls_run) ≤ 1)%nat ∧
  (∀ balances, settled balances_run = Returned balances → length (rpcs balances_run) = 1%nat) ∧
  (∀ results, settled calls_run = Returned results → length (rpcs calls_run) = 1%nat).
Proof.
  cbn zeta. unfold getErc20BatchBalances, batchCalls.
  destruct (getProvider providerManager (Some (default 1 chainId))) as [provider|];
    cbn; [|repeat split; (lia || done)].
  destruct (getMulticallAddress (default 1 chainId)) as [address|];
    cbn; [|repeat split; (lia || done)].
  unfold try_catch, invoke_tryAggregate, invoke_aggregate.
  destruct (Multicall2_tryAggregate _ _ _ _); cbn;
    (destruct (balanceOf_calls _ _) as [batch|]; cbn;
     [destruct (Multicall2_aggregate _ _ batch) as [[bn rd]|]; cbn;
      [destruct (process_results _ _ _ _); cbn|]|]);
    repeat split; (lia || done).
Qed.

(** X15: asked for no token at all, [getErc20BatchBalances] still makes the
    round-trip, with an empty batch, and returns the empty mapping whatever
    comes back; the owner address is never encoded, so an owner that could
    not be encoded goes unnoticed. *)
Theorem empty_request_makes_the_round_trip {E : Ethers} providerManager owner chainId
    provider address blockNumber returnData :
  getProvider providerManager (Some (default 1 chainId)) = Returned provider →
  getMulticallAddress (default 1 chainId) = Returned address →
  Multicall2_aggregate address provider [] = Returned (blockNumber, returnData) →
  getErc20BatchBalances providerManager
    {| ownerAddress := owner; tokenAddresses := [] |} chainId
  = Run [Invoke_aggregate address provider []] (Returned ∅).
Proof.
  intros Hp Ha Hagg.
  rewrite (getErc20BatchBalances_resolved _ _ _ provider address []) by done.
  by rewrite Hagg.
Qed.

(** No token and an owner that is not an address. *)
Lemma empty_request_makes_the_round_trip_witness :
  let E := Sample.on_chain Sample.tokens in
  encode_balanceOf (Ethers := E) "nobody" = Threw (JsError "invalid address") ∧
  getErc20BatchBalances (E := E) Sample.mainnet
    {| ownerAddress := "nobody"; tokenAddresses := [] |} None
  = Run [Invoke_aggregate "0x5BA1e12693Dc8F9c48aAD8770482f4739bEeD696"
           (NewProvider "https://eth-mainnet.public.blastapi.io") []]
        (Returned ∅).
Proof.
  intros E. split; [vm_compute; reflexivity|].
  apply (empty_request_makes_the_round_trip (E := E) Sample.mainnet "nobody" None
           (NewProvider "https://eth-mainnet.public.blastapi.io")
           "0x5BA1e12693Dc8F9c48aAD8770482f4739bEeD696" 19000000%N []);
    vm_compute; reflexivity.
Defined.

(** X16: when the owner address cannot be encoded and at least one token is
    asked for, [getErc20BatchBalances] throws the encoder's own error, not
    wrapped in "Failed to get batch balances", and starts no round-trip. *)
Theorem unencodable_owner_is_not_wrapped {E : Ethers} providerManager owner token tokens
    chainId provider address cause :
  getProvider providerManager (Some (default 1 chainId)) = Returned provider →
  getMulticallAddress (default 1 chainId) = Returned address →
  encode_balanceOf owner = Threw cause →
  getErc20BatchBalances providerManager
    {| ownerAddress := owner; tokenAddresses := token :: tokens |} chainId
  = Run [] (Threw cause).
Proof.
  intros Hp Ha Henc. unfold getErc20BatchBalances. cbn.
  rewrite Hp, Ha. cbn. unfold balanceOf_calls. cbn [mapM]. by rewrite Henc.
Qed.

(** The balance of DAI for an owner that is not an address. *)
Lemma unencodable_owner_is_not_wrapped_witness :
  let E := Sample.on_chain Sample.tokens in
  getErc20BatchBalances (E := E) Sample.mainnet
    {| ownerAddress := "nobody"; tokenAddresses := [Sample.DAI] |} None
  = Run [] (Threw (JsError "invalid address")).
Proof.
  intros E.
  apply (unencodable_owner_is_not_wrapped (E := E) Sample.mainnet "nobody" Sample.DAI []
           None (NewProvider "https://eth-mainnet.public.blastapi.io")
           "0x5BA1e12693Dc8F9c48aAD8770482f4739bEeD696");
    vm_compute; reflexivity.
Defined.

(** X17: one entry that does not decode fails the whole call: when the
    entries before it decode and it lies within the first N, the operation
    throws the decoder's error wrapped in "Failed to get batch balances",
    and the balances already decoded are not returned. *)
Theorem undecodable_entry_fails_the_batch {E : Ethers} providerManager owner tokens
    chainId provider address callData blockNumber decodable data after cause :
  getProvider providerManager (Some (default 1 chainId)) = Returned provider →
  getMulticallAddress (default 1 chainId) = Returned address →
  encode_balanceOf owner = Returned callData →
  Multicall2_aggregate address provider ((λ token, Call token callData) <$> tokens)
    = Returned (blockNumber, decodable ++ data :: after) →
  Forall (λ data, ∃ value, decode_uint256 data = Returned value) decodable →
  decode_uint256 data = Threw cause →
  (length decodable < length tokens)%nat →
  getErc20BatchBalances providerManager
    {| ownerAddress := owner; tokenAddresses := tokens |} chainId
  = Run [Invoke_aggregate address provider ((λ token, Call token callData) <$> tokens)]
        (Threw (batch_balances_failed cause)).
Proof.
  intros Hp Ha Henc Hagg Hdec Hdata Hlen.
  rewrite (getErc20BatchBalances_resolved _ _ _ provider address
             ((λ token, Call token callData) <$> tokens)); cbn;
    [|done|done|by apply balanceOf_calls_encoded].
  rewrite Hagg.
  destruct (decoded_values _ Hdec) as [values Hvalues].
  pose proof (process_results_undecodable [] decodable values data after tokens ∅ cause
                Hvalues Hdata Hlen) as Hloop.
  cbn in Hloop. by rewrite Hloop.
Qed.

(** Two tokens, the second answered with two bytes only. *)
Lemma undecodable_entry_fails_the_batch_witness :
  let E := Sample.scripted [Sample.abi_word 5; "0x1234"] [] in
  let callData :=
    "0x70a08231000000000000000000000000742d35cc6634c0532925a3b844bc454e4438f44e" in
  getErc20BatchBalances (E := E) Sample.mainnet
    {| ownerAddress := Sample.owner; tokenAddresses := [Sample.DAI; Sample.USDC] |} None
  = Run [Invoke_aggregate "0x5BA1e12693Dc8F9c48aAD8770482f4739bEeD696"
           (NewProvider "https://eth-mainnet.public.blastapi.io")
           [Call Sample.DAI callData; Call Sample.USDC callData]]
        (Threw (JsError "Failed to get batch balances: data out-of-bounds")).
Proof.
  intros E callData.
  apply (undecodable_entry_fails_the_batch (E := E) Sample.mainnet Sample.owner
           [Sample.DAI; Sample.USDC] None
           (NewProvider "https://eth-mainnet.public.blastapi.io")
           "0x5BA1e12693Dc8F9c48aAD8770482f4739bEeD696" callData 19000000%N
           [Sample.abi_word 5] "0x1234" [] (JsError "data out-of-bounds")).
  - vm_compute; reflexivity.
  - vm_compute; reflexivity.
  - vm_compute; reflexivity.
  - vm_compute; reflexivity.
  - repeat constructor. exists 5%N. vm_compute; reflexivity.
  - vm_compute; reflexivity.
  - cbn. lia.
Defined.

(** X18: when the [tryAggregate] round-trip fails, [batchCalls] throws one
    error whose message is "Failed to batch calls: " followed by the
    message of the cause (or by "Unknown error occurred" for a thrown value
    that is not an [Error]); no result sequence is returned. *)
Theorem tryAggregate_failure_is_wrapped {E : Ethers} providerManager calls chainId
    requireSuccess provider address cause :
  getProvider providerManager (Some (default 1 chainId)) = Returned provider →
  getMulticallAddress (default 1 chainId) = Returned address →
  Multicall2_tryAggregate address provider (default false requireSuccess) calls
    = Threw cause →
  batchCalls providerManager calls chainId requireSuccess
  = Run [Invoke_tryAggregate address provider (default false requireSuccess) calls]
        (Threw (JsError ("Failed to batch calls: " +:+
                           match cause with
                           | JsError message => message
                           | NonError => "Unknown error occurred"
                           end))).
Proof.
  intros Hp Ha Hfail.
  rewrite (batchCalls_resolved _ _ _ _ provider address) by done.
  rewrite Hfail. by destruct cause.
Qed.

(** Success required of a batch whose second call reverts. *)
Lemma tryAggregate_failure_is_wrapped_witness :
  let E := Sample.on_chain Sample.tokens in
  let calls :=
    [Call Sample.DAI "0x18160ddd";
     Call "0x000000000000000000000000000000000000dEaD" "0x18160ddd"] in
  batchCalls (E := E) Sample.mainnet calls None (Some true)
  = Run [Invoke_tryAggregate "0x5BA1e12693Dc8F9c48aAD8770482f4739bEeD696"
           (NewProvider "https://eth-mainnet.public.blastapi.io") true calls]
        (Threw (JsError ("Failed to batch calls: " +:+
                           "execution reverted: Multicall2 aggregate: call failed"))).
Proof.
  intros E calls.
  apply (tryAggregate_failure_is_wrapped (E := E) Sample.mainnet calls None (Some true)
           (NewProvider "https://eth-mainnet.public.blastapi.io")
           "0x5BA1e12693Dc8F9c48aAD8770482f4739bEeD696"
           (JsError "execution reverted: Multicall2 aggregate: call failed"));
    vm_compute; reflexivity.
Defined.

(** X19: when the token addresses are pairwise distinct (and the response
    has one decodable entry per address), the mapping has exactly one entry
    per token address and is positional: every address is mapped to the
    entry at its own index. *)
Theorem distinct_tokens_get_one_entry_each {E : Ethers} providerManager owner tokens
    chainId provider address callData blockNumber returnData :
  getProvider providerManager (Some (default 1 chainId)) = Returned provider →
  getMulticallAddress (default 1 chainId) = Returned address →
  encode_balanceOf owner = Returned callData →
  Multicall2_aggregate address provider ((λ token, Call token callData) <$> tokens)
    = Returned (blockNumber, returnData) →
  length returnData = length tokens →
  Forall (λ data, ∃ value, decode_uint256 data = Returned value) returnData →
  NoDup tokens →
  ∃ balances,
    settled (getErc20BatchBalances providerManager
               {| ownerAddress := owner; tokenAddresses := tokens |} chainId)
      = Returned balances ∧
    size balances = length tokens ∧
    positional tokens returnData balances.
Proof.
  intros Hp Ha Henc Hagg Hlen Hdec Hnodup.
  rewrite (getErc20BatchBalances_resolved _ _ _ provider address
             ((λ token, Call token callData) <$> tokens)); cbn;
    [|done|done|by apply balanceOf_calls_encoded].
  rewrite Hagg.
  destruct (decoded_values _ Hdec) as [values Hvalues].
  pose proof (process_results_decoded [] returnData [] tokens values ∅ Hvalues) as Hloop.
  rewrite app_nil_r in Hloop. cbn in Hloop. rewrite Hloop by done.
  assert (length values = length tokens) as Hvlen
    by (apply Forall2_length in Hvalues; lia).
  eexists. split; [reflexivity|]. split.
  - rewrite <- size_dom, dom_recorded, dom_empty_L, (left_id_L ∅ (∪)), fst_zip by lia.
    by apply size_list_to_set.
  - intros i token data value Hi Hdata Hvalue.
    destruct (Forall2_lookup_l _ _ _ _ _ Hvalues Hdata) as (v & Hv & Hdv).
    assert (v = value) as -> by congruence.
    apply (recorded_lookup_last _ _ i).
    + by apply lookup_zip_with_Some; exists token, value.
    + rewrite fst_zip by lia. intros j Hj Htoken.
      pose proof (NoDup_lookup _ _ _ _ Hnodup Hi Htoken). lia.
Qed.

(** DAI, USDC and WETH on the sample chain. *)
Lemma distinct_tokens_get_one_entry_each_witness :
  let E := Sample.on_chain Sample.tokens in
  let tokens := [Sample.DAI; Sample.USDC; Sample.WETH] in
  let returnData := [Sample.abi_word 1000; Sample.abi_word 100; Sample.abi_word 0] in
  ∃ balances,
    settled (getErc20BatchBalances (E := E) Sample.mainnet
               {| ownerAddress := Sample.owner; tokenAddresses := tokens |} None)
      = Returned balances ∧
    size balances = length tokens ∧
    positional (E := E) tokens returnData balances.
Proof.
  intros E tokens returnData.
  apply (distinct_tokens_get_one_entry_each (E := E) Sample.mainnet Sample.owner tokens
           None (NewProvider "https://eth-mainnet.public.blastapi.io")
           "0x5BA1e12693Dc8F9c48aAD8770482f4739bEeD696"
           "0x70a08231000000000000000000000000742d35cc6634c0532925a3b844bc454e4438f44e"
           19000000%N returnData).
  - vm_compute; reflexivity.
  - vm_compute; reflexivity.
  - vm_compute; reflexivity.
  - vm_compute; reflexivity.
  - reflexivity.
  - repeat constructor.
    + exists 1000%N. vm_compute; reflexivity.
    + exists 100%N. vm_compute; reflexivity.
    + exists 0%N. vm_compute; reflexivity.
  - apply (bool_decide_unpack _). vm_compute. exact I.
Defined.

(** X20: a chain registered through [addProvider] with a valid URL is the
    one the batching service then talks to: for a chain id other than 0 that
    has a Multicall2 address, both operations hand their batch to the
    contract at that address through the provider just registered, whatever
    key was given and however [addProvider] ended. *)
Theorem batch_goes_through_registered_provider {E : Ethers} this url chainId key owner
    tokens calls requireSuccess address callData :
  isValidRpcUrl url = true →
  chainId ≠ 0 →
  getMulticallAddress chainId = Returned address →
  encode_balanceOf owner = Returned callData →
  let left := (addProvider this url chainId key).1 in
  rpcs (getErc20BatchBalances left
          {| ownerAddress := owner; tokenAddresses := tokens |} (Some chainId))
    = [Invoke_aggregate address (NewProvider url) ((λ token, Call token callData) <$> tokens)] ∧
  rpcs (batchCalls left calls (Some chainId) requireSuccess)
    = [Invoke_tryAggregate address (NewProvider url) (default false requireSuccess) calls].
Proof.
  intros Hurl Hnonzero Ha Henc left.
  assert (getProvider left (Some chainId) = Returned (NewProvider url)) as Hp.
  { unfold getProvider.
    replace (number_or (Some chainId) (defaultChainId left)) with chainId
      by (by destruct chainId).
    subst left. by rewrite addProvider_stores_provider. }
  split.
  - by rewrite (getErc20BatchBalances_resolved _ _ _ (NewProvider url) address
                  ((λ token, Call token callData) <$> tokens));
      [| | |apply balanceOf_calls_encoded].
  - by rewrite (batchCalls_resolved _ _ _ _ (NewProvider url) address).
Qed.

(** Polygon registered with a key that is rejected, then used. *)
Lemma batch_goes_through_registered_provider_witness :
  let E := Sample.on_chain Sample.tokens in
  let url := "https://polygon-rpc.com" in
  let address := "0x275617327c958bD06b5D6b871E7f491D76113dd8" in
  let callData :=
    "0x70a08231000000000000000000000000742d35cc6634c0532925a3b844bc454e4438f44e" in
  let calls := [Call Sample.DAI "0x18160ddd"] in
  let left := (addProvider (E := E) Sample.mainnet url 137 (Some "0x1234")).1 in
  rpcs (getErc20BatchBalances (E := E) left
          {| ownerAddress := Sample.owner; tokenAddresses := [Sample.DAI] |} (Some 137))
    = [Invoke_aggregate address (NewProvider url)
         ((λ token, Call token callData) <$> [Sample.DAI])] ∧
  rpcs (batchCalls (E := E) left calls (Some 137) None)
    = [Invoke_tryAggregate address (NewProvider url) false calls].
Proof.
  intros E url address callData calls.
  apply (batch_goes_through_registered_provider (E := E) Sample.mainnet url 137
           (Some "0x1234") Sample.owner [Sample.DAI] calls None address callData);
    try (vm_compute; reflexivity).
  discriminate.
Defined.

(** X21: registering or replacing another chain does not change what the
    batching service does for a chain: for a chain id other than 0, both
    operations run the same after [addProvider] on a different chain id as
    before it. *)
Theorem batch_ignores_other_registrations {E : Ethers} this url other key params calls
    chainId requireSuccess :
  default 1 chainId ≠ 0 →
  default 1 chainId ≠ other →
  let left := (addProvider this url other key).1 in
  getErc20BatchBalances left params chainId = getErc20BatchBalances this params chainId ∧
  batchCalls left calls chainId requireSuccess = batchCalls this calls chainId requireSuccess.
Proof.
  intros Hnonzero Hother left.
  assert (getProvider left (Some (default 1 chainId))
            = getProvider this (Some (default 1 chainId))) as Hp.
  { subst left. apply addProvider_frame.
    by destruct (default 1 chainId). }
  unfold getErc20BatchBalances, batchCalls. cbn zeta. by rewrite Hp.
Qed.

(** Polygon is registered; a Mainnet batch with no chain id runs as before. *)
Lemma batch_ignores_other_registrations_witness :
  let E := Sample.on_chain Sample.tokens in
  let params := {| ownerAddress := Sample.owner; tokenAddresses := [Sample.DAI] |} in
  let calls := [Call Sample.DAI "0x18160ddd"] in
  let left := (addProvider (E := E) Sample.mainnet "https://polygon-rpc.com" 137 None).1 in
  getErc20BatchBalances (E := E) left params None
    = getErc20BatchBalances (E := E) Sample.mainnet params None ∧
  batchCalls (E := E) left calls None None
    = batchCalls (E := E) Sample.mainnet calls None None.
Proof.
  intros E params calls.
  apply (batch_ignores_other_registrations (E := E) Sample.mainnet
           "https://polygon-rpc.com" 137 None params calls None None); discriminate.
Defined.

(** ** Validation and formatting *)

Lemma string_app_cons (x : ascii) (a b : string) :
  String x a +:+ b = String x (a +:+ b).
Proof. reflexivity. Qed.

Lemma string_length_app (a b : string) :
  String.length (a +:+ b) = (String.length a + String.length b)%nat.
Proof.
  induction a as [|x a IH]; [reflexivity|].
  rewrite string_app_cons. cbn [String.length]. by rewrite IH.
Qed.

Lemma string_app_assoc (a b c : string) : (a +:+ b) +:+ c = a +:+ b +:+ c.
Proof.
  induction a as [|x a IH]; [reflexivity|].
  rewrite !string_app_cons. by rewrite IH.
Qed.

Lemma substring_all (s : string) : String.substring 0 (String.length s) s = s.
Proof. induction s as [|x s IH]; [reflexivity|]. cbn. by rewrite IH. Qed.

Lemma substring_front (a b : string) :
  String.substring 0 (String.length a) (a +:+ b) = a.
Proof.
  induction a as [|x a IH]; [by destruct b|].
  rewrite string_app_cons. cbn. by rewrite IH.
Qed.

Lemma substring_back (a b : string) :
  String.substring (String.length a) (String.length b) (a +:+ b) = b.
Proof.
  induction a as [|x a IH]; [apply substring_all|].
  rewrite string_app_cons. exact IH.
Qed.

(** [s.slice(0, n)] is the first [n] characters. *)
Lemma slice_front (a b : string) :
  slice (a +:+ b) 0 (Some (Z.of_nat (String.length a))) = a.
Proof.
  unfold slice, slice_bound. rewrite string_length_app.
  change (0 <? 0) with false. cbn iota.
  destruct (Z.ltb_spec (Z.of_nat (String.length a)) 0) as [Hneg|_]; [lia|].
  rewrite (Z.min_l 0), Z.min_l by lia.
  destruct (Z.ltb_spec 0 (Z.of_nat (String.length a))) as [Hpos|Hzero].
  - rewrite Z.sub_0_r, Nat2Z.id. apply substring_front.
  - destruct a; [done|cbn in Hzero; lia].
Qed.

(** [s.slice(-n)] is the last [n] characters, for [n] at least 1. *)
Lemma slice_back (a b : string) :
  b ≠ "" → slice (a +:+ b) (- Z.of_nat (String.length b)) None = b.
Proof.
  intros Hb. unfold slice, slice_bound. rewrite string_length_app.
  assert (0 < String.length b)%nat as Hlen by (destruct b; [done|cbn; lia]).
  destruct (Z.ltb_spec (- Z.of_nat (String.length b)) 0) as [_|Hpos]; [|lia].
  rewrite Z.max_l by lia.
  destruct (Z.ltb_spec
              (Z.of_nat (String.length a + String.length b) + - Z.of_nat (String.length b))
              (Z.of_nat (String.length a + String.length b))) as [_|Hge]; [|lia].
  replace (Z.to_nat (_ + - _)) with (String.length a) by lia.
  replace (Z.to_nat (_ - _)) with (String.length b) by lia.
  apply substring_back.
Qed.

(** [s.slice(-0)] is the whole string. *)
Lemma slice_minus_zero (s : string) : slice s (- 0) None = s.
Proof.
  change (- 0) with 0.
  unfold slice, slice_bound. change (0 <? 0) with false. cbn iota.
  rewrite Z.min_l by lia.
  destruct (Z.ltb_spec 0 (Z.of_nat (String.length s))) as [Hpos|Hzero].
  - rewrite Z.sub_0_r, Nat2Z.id. apply substring_all.
  - destruct s; [done|cbn in Hzero; lia].
Qed.

(** X22: [validateTransferParams] is valid exactly when the token address,
    the recipient address and the amount all pass their checks, and then
    carries no error; otherwise the error names the first parameter that
    fails, in the order token address, recipient address, amount. *)
Theorem validateTransferParams_reports_first_invalid {R : Runtime} token recipient amount :
  let result := validateTransferParams token recipient amount in
  (valid result = true ↔
     isValidAddress token = true ∧ isValidAddress recipient = true
     ∧ isValidAmount amount = true) ∧
  (valid result = true ↔ error result = None) ∧
  error result =
    if negb (isValidAddress token) then Some "Invalid token address"
    else if negb (isValidAddress recipient) then Some "Invalid recipient address"
    else if negb (isValidAmount amount) then Some "Invalid amount"
    else None.
Proof.
  unfold validateTransferParams.
  destruct (isValidAddress token), (isValidAddress recipient), (isValidAmount amount);
    cbn; repeat split; intros; destruct_and?; done.
Qed.

(** X23: [isValidAmount] accepts exactly the strings that [Number] reads as
    neither NaN nor below zero: zero, negative zero and positive infinity
    are accepted, and there is no upper bound. *)
Theorem isValidAmount_accepts_non_negative {R : Runtime} amount :
  isValidAmount amount =
    match Number amount with
    | NaN => false
    | Infinity negative => negb negative
    | Finite mantissa _ => bool_decide (0 ≤ mantissa)
    end.
Proof.
  unfold isValidAmount.
  destruct (Number amount) as [|[]|mantissa exponent]; cbn; try reflexivity.
  destruct (mantissa <? 0) eqn:Hneg; symmetry.
  - apply bool_decide_eq_false. lia.
  - apply bool_decide_eq_true. lia.
Qed.

(** X24: for an address that passes [isValidAddress], [shortenAddress] keeps
    the first [startLength] and the last [endLength] characters around
    "...": when the address is [front], some middle part and a non-empty
    [back], asking for their lengths (6 and 4 when left out) returns
    [front ++ "..." ++ back]. *)
Theorem shortenAddress_keeps_both_ends {R : Runtime} front middle back startLength endLength :
  isValidAddress (front +:+ middle +:+ back) = true →
  default 6 startLength = Z.of_nat (String.length front) →
  default 4 endLength = Z.of_nat (String.length back) →
  back ≠ "" →
  shortenAddress (front +:+ middle +:+ back) startLength endLength
  = Returned (front +:+ "..." +:+ back).
Proof.
  intros Hvalid Hstart Hend Hback. unfold shortenAddress.
  rewrite Hvalid, Hstart, Hend. cbn [negb].
  rewrite slice_front.
  rewrite <- (string_app_assoc front middle back).
  by rewrite slice_back.
Qed.

(** The DAI address with the default lengths. *)
Lemma shortenAddress_keeps_both_ends_witness :
  let R := SampleRuntime.runtime in
  shortenAddress (R := R) ("0x6B17" +:+ "5474E89094C44Da98b954EedeAC49527" +:+ "1d0F")
    None None
  = Returned ("0x6B17" +:+ "..." +:+ "1d0F").
Proof.
  intros R.
  apply (shortenAddress_keeps_both_ends (R := R) "0x6B17"
           "5474E89094C44Da98b954EedeAC49527" "1d0F" None None);
    try (vm_compute; reflexivity).
  discriminate.
Defined.

(** X25: the edges of [shortenAddress]: an address that fails
    [isValidAddress] is refused with "Invalid Ethereum address", and for one
    that passes, an [endLength] of 0 does not drop the tail: the whole
    address follows the dots. *)
Theorem shortenAddress_edges {R : Runtime} front rest :
  shortenAddress (front +:+ rest) (Some (Z.of_nat (String.length front))) (Some 0)
  = if isValidAddress (front +:+ rest)
    then Returned (front +:+ "..." +:+ front +:+ rest)
    else Threw (JsError "Invalid Ethereum address").
Proof.
  unfold shortenAddress.
  destruct (isValidAddress (front +:+ rest)); cbn [negb default]; [|done].
  by rewrite slice_front, slice_minus_zero.
Qed.

(** X26: every error an operation throws once its round-trip has started is
    an [Error] whose message begins with the operation's prefix, "Failed to
    get batch balances: " or "Failed to batch calls: "; the errors that are
    not wrapped are thrown before any round-trip. *)
Theorem errors_after_the_round_trip_are_wrapped {E : Ethers} providerManager params calls
    chainId requireSuccess :
  let balances_run := getErc20BatchBalances providerManager params chainId in
  let calls_run := batchCalls providerManager calls chainId requireSuccess in
  (∀ cause, settled balances_run = Threw cause →
     rpcs balances_run = [] ∨
     ∃ message, cause = JsError ("Failed to get batch balances: " +:+ message)) ∧
  (∀ cause, settled calls_run = Threw cause →
     rpcs calls_run = [] ∨
     ∃ message, cause = JsError ("Failed to batch calls: " +:+ message)).
Proof.
  cbn zeta. unfold getErc20BatchBalances, batchCalls.
  destruct (getProvider providerManager (Some (default 1 chainId))) as [provider|];
    cbn; [|split; intros; by left].
  destruct (getMulticallAddress (default 1 chainId)) as [address|];
    cbn; [|split; intros; by left].
  unfold try_catch, invoke_tryAggregate, invoke_aggregate. split.
  - destruct (balanceOf_calls _ _) as [batch|]; cbn; [|intros; by left].
    destruct (Multicall2_aggregate _ _ batch) as [[bn rd]|[message|]]; cbn;
      [destruct (process_results _ _ _ _) as [|[message|]]; cbn| |];
      intros cause Hcause; try done; right;
      injection Hcause as <-; eexists; reflexivity.
  - destruct (Multicall2_tryAggregate _ _ _ _) as [|[message|]]; cbn;
      intros cause Hcause; try done; right;
      injection Hcause as <-; eexists; reflexivity.
Qed.
